(** * A shallow embedding of the tap/target SDK

    The development follows the three source files of the repository:

    - [singer_sdk/sinks.py]       (module [Sink]),
    - [tap_base/TapBase.py]       (module [Tap]),
    - [tests/sample_tap_snowflake/SampleTapSnowfakeConnection.py]
                                  (module [SampleConnection]).

    Python values are represented by the inductive type [pyval]; a Python
    [dict] whose iteration order is observable is an association list with
    first-match lookup and in-place update; mutable list objects that are
    shared between names live in an explicit heap; raising an exception is
    the [Raise] constructor of [pyresult]. *)

From Stdlib Require Import ZArith String Ascii List Lia DecimalString.
From stdpp Require Import base option list strings.

Local Open Scope string_scope.
Local Open Scope list_scope.
Local Open Scope Z_scope.

#[local] Set Warnings "-register-all".

(** ** Exceptions and the error monad *)

Inductive exn : Type :=
| AttributeError (name : string)
| KeyError (key : string)
| NameError (name : string)
| ValueError (msg : string)
| TypeError (msg : string)
| NotImplementedError (msg : string)
| SystemError (msg : string)
| TooManyRecordsException (msg : string)
| ExternalError (tag : string).

Inductive pyresult (A : Type) : Type :=
| Ok (a : A)
| Raise (e : exn).

Arguments Ok {A} a.
Arguments Raise {A} e.

#[global] Instance result_ret : MRet pyresult := fun A a => Ok a.
#[global] Instance result_bind : MBind pyresult := fun A B f m =>
  match m with
  | Ok a => f a
  | Raise e => Raise e
  end.

Definition returns {A} (r : pyresult A) : Prop := exists a, r = Ok a.
Definition raises {A} (r : pyresult A) : Prop := exists e, r = Raise e.

(** ** Python values *)

(** A naive [datetime.datetime]. *)
Record datetime : Type := mkDatetime {
  year : Z; month : Z; day : Z;
  hour : Z; minute : Z; second : Z; microsecond : Z
}.

Inductive pyval : Type :=
| VNone
| VBool (b : bool)
| VInt (z : Z)
| VStr (s : string)
| VDatetime (d : datetime)
| VList (l : list pyval)
| VDict (d : list (string * pyval)).

(** A [dict] with string keys, in insertion order. *)
Abbreviation pydict := (list (string * pyval)).

Module Dict.

Definition keys (d : pydict) : list string := map fst d.

(** [d[k]] when present. *)
Fixpoint lookup (k : string) (d : pydict) : option pyval :=
  match d with
  | [] => None
  | (k', v) :: d' => if String.eqb k k' then Some v else lookup k d'
  end.

(** [d.get(k)], whose default is [None]. *)
Definition get (k : string) (d : pydict) : pyval :=
  match lookup k d with
  | Some v => v
  | None => VNone
  end.

(** [d[k]], raising [KeyError] when absent. *)
Definition getitem (k : string) (d : pydict) : pyresult pyval :=
  match lookup k d with
  | Some v => Ok v
  | None => Raise (KeyError k)
  end.

(** [d[k] = v]: an existing key keeps its position, a new key goes last. *)
Fixpoint setitem (k : string) (v : pyval) (d : pydict) : pydict :=
  match d with
  | [] => [(k, v)]
  | (k', v') :: d' =>
      if String.eqb k k' then (k', v) :: d' else (k', v') :: setitem k v d'
  end.

Definition contains (k : string) (d : pydict) : bool :=
  match lookup k d with
  | Some _ => true
  | None => false
  end.

End Dict.

(** ** Text formatting helpers *)

Module Fmt.

(** Decimal text of a non-negative number. *)
Definition dec (n : Z) : string :=
  NilZero.string_of_uint (N.to_uint (Z.to_N n)).

Fixpoint zeros (n : nat) : string :=
  match n with
  | O => EmptyString
  | S n' => String "0"%char (zeros n')
  end.

(** The [%0wd] conversion for a non-negative number. *)
Definition pad (w : nat) (n : Z) : string :=
  let s := dec n in
  zeros (w - String.length s) +:+ s.

(** [str(z)] for an [int]. *)
Definition int_str (z : Z) : string :=
  if z <? 0 then "-" +:+ dec (- z) else dec z.

End Fmt.

(** [datetime.isoformat()] of a naive datetime: the fractional part is
    printed only when the microsecond field is not zero. *)
Definition isoformat (d : datetime) : string :=
  Fmt.pad 4 (year d) +:+ "-" +:+ Fmt.pad 2 (month d) +:+ "-" +:+ Fmt.pad 2 (day d)
  +:+ "T" +:+ Fmt.pad 2 (hour d) +:+ ":" +:+ Fmt.pad 2 (minute d)
  +:+ ":" +:+ Fmt.pad 2 (second d)
  +:+ (if microsecond d =? 0 then EmptyString
       else "." +:+ Fmt.pad 6 (microsecond d)).

(** * singer_sdk/sinks.py *)

Module Sink.

(** ** The object store

    [records_to_drain] and [_records_draining] are names for list objects
    that [load_record] mutates in place and [start_drain] hands out, so
    the objects live in a heap and the sink holds their addresses. *)

Abbreviation addr := nat.

(** A buffer object: a [list] of records, or a value of some other type
    (the annotation is [Union[List[dict], Any]]) of which only the type
    name, the value of [len()], when it has one, and the truth value of
    [__bool__], when the type defines it, are observed.  [ObjOther] is an
    object whose type has no [__bool__]; [ObjTruth] is one whose type has
    it, such as [None], a number or a boolean. *)
Inductive pyobj : Type :=
| ObjList (items : list pydict)
| ObjOther (type_name : string) (len : option Z)
| ObjTruth (type_name : string) (truth : bool) (len : option Z).

Record world : Type := mkWorld {
  heap : list pyobj;
  logged : list string
}.

Definition alloc (o : pyobj) (w : world) : addr * world :=
  (length (heap w), {| heap := heap w ++ [o]; logged := logged w |}).

Definition deref (a : addr) (w : world) : pyresult pyobj :=
  match heap w !! a with
  | Some o => Ok o
  | None => Raise (SystemError "dangling reference")
  end.

(** [len(o)] *)
Definition py_len (o : pyobj) : pyresult Z :=
  match o with
  | ObjList items => Ok (Z.of_nat (length items))
  | ObjOther _ (Some n) => Ok n
  | ObjOther ty None =>
      Raise (TypeError ("object of type '" +:+ ty +:+ "' has no len()"))
  | ObjTruth _ _ (Some n) => Ok n
  | ObjTruth ty _ None =>
      Raise (TypeError ("object of type '" +:+ ty +:+ "' has no len()"))
  end.

(** Truth value of an object: [__bool__] decides when the type has it;
    otherwise a sized object is true when not empty, and any other object
    is true. *)
Definition py_bool (o : pyobj) : bool :=
  match o with
  | ObjList items => negb (bool_decide (items = []))
  | ObjOther _ (Some n) => negb (n =? 0)
  | ObjOther _ None => true
  | ObjTruth _ truth _ => truth
  end.

Inductive DatetimeErrorTreatmentEnum : Type := ERROR | MAX | NULL.

(** ** The sink *)

Record Sink : Type := mkSink {
  schema : pydict;
  stream_name : string;
  _config : pydict;
  records_to_drain : addr;
  _records_draining : option addr;
  _total_records_read : Z;
  _total_records_written : Z;
  _dupe_records_merged : Z
}.

Definition MAX_SIZE_DEFAULT : Z := 10000.

(** [__init__(target, stream_name, schema, key_properties)]; of the target
    only its configuration is kept (copied), and its logger receives one
    line.  The message is not an f-string in the source. *)
Definition __init__ (target_config : pydict) (stream_name : string)
    (schema : pydict) (key_properties : option (list string)) (w : world)
  : Sink * world :=
  let w := {| heap := heap w;
              logged := logged w ++
                ["Initializing target sink for stream '{stream_name}'..."] |} in
  let '(a, w) := alloc (ObjList []) w in
  ({| schema := schema; stream_name := stream_name;
      _config := target_config;
      records_to_drain := a; _records_draining := None;
      _total_records_read := 0; _total_records_written := 0;
      _dupe_records_merged := 0 |}, w).

Definition max_size (self : Sink) : Z := MAX_SIZE_DEFAULT.

Definition current_size (self : Sink) (w : world) : pyresult Z :=
  o ← deref (records_to_drain self) w; py_len o.

Definition is_full (self : Sink) (w : world) : pyresult bool :=
  n ← current_size self w; Ok (n >=? max_size self).

Definition tally_record_read (count : Z) (self : Sink) : Sink :=
  {| schema := schema self; stream_name := stream_name self;
     _config := _config self;
     records_to_drain := records_to_drain self;
     _records_draining := _records_draining self;
     _total_records_read := _total_records_read self + count;
     _total_records_written := _total_records_written self;
     _dupe_records_merged := _dupe_records_merged self |}.

Definition tally_record_written (count : Z) (self : Sink) : Sink :=
  {| schema := schema self; stream_name := stream_name self;
     _config := _config self;
     records_to_drain := records_to_drain self;
     _records_draining := _records_draining self;
     _total_records_read := _total_records_read self;
     _total_records_written := _total_records_written self + count;
     _dupe_records_merged := _dupe_records_merged self |}.

Definition tally_duplicate_merged (count : Z) (self : Sink) : Sink :=
  {| schema := schema self; stream_name := stream_name self;
     _config := _config self;
     records_to_drain := records_to_drain self;
     _records_draining := _records_draining self;
     _total_records_read := _total_records_read self;
     _total_records_written := _total_records_written self;
     _dupe_records_merged := _dupe_records_merged self + count |}.

Definition include_sdc_metadata_properties (self : Sink) : bool := true.

Definition primary_keys_required (self : Sink) : pyval :=
  match Dict.lookup "primary_keys_required" (_config self) with
  | Some v => v
  | None => VBool false
  end.

Definition datetime_error_treatment (self : Sink)
  : DatetimeErrorTreatmentEnum := ERROR.

(** [_add_metadata_values_to_record(record, message)].  The record is
    mutated in place; the function returns the record after the three
    assignments.  [now] is the value read from [datetime.datetime.now()]. *)
Definition _add_metadata_values_to_record
    (now : datetime) (record message : pydict) : pydict :=
  let record := Dict.setitem "_sdc_extracted_at"
                  (Dict.get "time_extracted" message) record in
  let record := Dict.setitem "_sdc_batched_at" (VStr (isoformat now)) record in
  let record := Dict.setitem "_sdc_deleted_at"
                  (Dict.get "_sdc_deleted_at" record) record in
  record.

(** ** Timestamp repair

    The detector, the date parser and the repair routine are imported
    from modules outside this file; they are parameters here.  The logger
    argument of the repair routine is left out. *)
Section Timestamps.

Variable get_datelike_property_type : string -> pyval -> option string.
Variable parse : pyval -> pyresult pyval.
Variable handle_invalid_timestamp_in_record :
  pydict -> list string -> pyval -> string -> exn ->
  DatetimeErrorTreatmentEnum -> pyresult pyval.

(** Truth value of an [Optional[str]]. *)
Definition datelike (o : option string) : option string :=
  match o with
  | Some ty => if String.eqb ty EmptyString then None else Some ty
  | None => None
  end.

(** [v[key]] for a string key: only a [dict] can be subscripted so. *)
Definition subscript (v : pyval) (key : string) : pyresult pyval :=
  match v with
  | VDict d => Dict.getitem key d
  | _ => Raise (TypeError "subscript")
  end.

(** The body of the loop for one [key].  [key] comes from
    [record.keys()], so reading [record[key]] cannot raise.  The record
    is assigned to only as the last step, so an iteration that raises
    leaves it as it was. *)
Definition validate_field (schema : pydict)
    (treatment : DatetimeErrorTreatmentEnum) (key : string)
    (record : pydict) : pyresult pydict :=
  properties ← Dict.getitem "properties" schema;
  descriptor ← subscript properties key;
  match datelike (get_datelike_property_type key descriptor) with
  | Some datelike_type =>
      let date_val := Dict.get key record in
      date_val ←
        match parse date_val with
        | Ok parsed => Ok parsed
        | Raise ex =>
            handle_invalid_timestamp_in_record
              record [key] date_val datelike_type ex treatment
        end;
      Ok (Dict.setitem key date_val record)
  | None => Ok record
  end.

(** The loop; the second component is the record as the loop left it,
    also when it raised. *)
Fixpoint validate_loop (schema : pydict)
    (treatment : DatetimeErrorTreatmentEnum) (keys : list string)
    (record : pydict) : pyresult () * pydict :=
  match keys with
  | [] => (Ok (), record)
  | key :: keys' =>
      match validate_field schema treatment key record with
      | Ok record' => validate_loop schema treatment keys' record'
      | Raise e => (Raise e, record)
      end
  end.

Definition _validate_timestamps_in_record (self : Sink) (record : pydict)
    (schema : pydict) (treatment : DatetimeErrorTreatmentEnum)
  : pyresult () * pydict :=
  validate_loop schema treatment (Dict.keys record) record.

Definition _validate_record (self : Sink) (record : pydict)
  : pyresult pydict * pydict :=
  match _validate_timestamps_in_record self record (schema self)
          (datetime_error_treatment self) with
  | (Ok _, record') => (Ok record', record')
  | (Raise e, record') => (Raise e, record')
  end.

(** What the loop does to one field: [v] is the value the record has under
    [key] when its turn comes, [current] the record at that moment, [v']
    the value afterwards. *)
Definition field_result (schema : pydict)
    (treatment : DatetimeErrorTreatmentEnum) (current : pydict)
    (key : string) (v v' : pyval) : Prop :=
  exists properties descriptor,
    Dict.lookup "properties" schema = Some (VDict properties)
    /\ Dict.lookup key properties = Some descriptor
    /\ match datelike (get_datelike_property_type key descriptor) with
       | None => v' = v
       | Some datelike_type =>
           match parse v with
           | Ok parsed => v' = parsed
           | Raise ex =>
               handle_invalid_timestamp_in_record
                 current [key] v datelike_type ex treatment = Ok v'
           end
       end.

(** A field as the loop leaves it when nothing raises and parsing
    succeeds: a date-like field holds the parsed value. *)
Definition normalized (properties : pydict) (field : string * pyval)
  : string * pyval :=
  let '(key, v) := field in
  match Dict.lookup key properties with
  | Some descriptor =>
      match datelike (get_datelike_property_type key descriptor) with
      | Some _ =>
          match parse v with
          | Ok parsed => (key, parsed)
          | Raise _ => (key, v)
          end
      | None => (key, v)
      end
  | None => (key, v)
  end.

End Timestamps.

Definition preprocess_record (self : Sink) (record : pydict) : pydict :=
  record.

(** [load_record(record)]: the list object is extended in place. *)
Definition load_record (record : pydict) (self : Sink) (w : world)
  : pyresult world :=
  o ← deref (records_to_drain self) w;
  match o with
  | ObjList items =>
      Ok {| heap := <[records_to_drain self := ObjList (items ++ [record])]>
                      (heap w);
            logged := logged w |}
  | ObjOther ty _ | ObjTruth ty _ _ =>
      Raise (ValueError ("Unexpected type '" +:+ ty +:+
                         "' detected in `records_to_drain`."))
  end.

(** [start_drain()]: returns the reference now held by
    [_records_draining]. *)
Definition start_drain (self : Sink) (w : world) : addr * Sink * world :=
  let draining := records_to_drain self in
  let '(fresh, w) := alloc (ObjList []) w in
  (draining,
   {| schema := schema self; stream_name := stream_name self;
      _config := _config self;
      records_to_drain := fresh;
      _records_draining := Some draining;
      _total_records_read := _total_records_read self;
      _total_records_written := _total_records_written self;
      _dupe_records_merged := _dupe_records_merged self |},
   w).

(** [drain(records_to_drain)]; the batch is only tested for truth. *)
Definition drain (self : Sink) (records_to_drain : pyobj) : pyresult () :=
  if py_bool records_to_drain then
    Raise (NotImplementedError
      "Records were found to be drained and no handling exists for drain().")
  else Ok ().

Definition mark_drained (self : Sink) : Sink :=
  {| schema := schema self; stream_name := stream_name self;
     _config := _config self;
     records_to_drain := records_to_drain self;
     _records_draining := None;
     _total_records_read := _total_records_read self;
     _total_records_written := _total_records_written self;
     _dupe_records_merged := _dupe_records_merged self |}.

(** ** Sequences of buffer operations *)

Inductive op : Type :=
| LoadRecord (record : pydict)
| StartDrain
| MarkDrained.

Definition step (o : op) (st : Sink * world) : pyresult (Sink * world) :=
  let '(self, w) := st in
  match o with
  | LoadRecord record => w' ← load_record record self w; Ok (self, w')
  | StartDrain => let '(_, self', w') := start_drain self w in Ok (self', w')
  | MarkDrained => Ok (mark_drained self, w)
  end.

Fixpoint run (ops : list op) (st : Sink * world) : pyresult (Sink * world) :=
  match ops with
  | [] => Ok st
  | o :: ops' => st' ← step o st; run ops' st'
  end.

(** The number of records loaded since the last [start_drain]. *)
Fixpoint queued_after (n : nat) (ops : list op) : nat :=
  match ops with
  | [] => n
  | LoadRecord _ :: ops' => queued_after (S n) ops'
  | StartDrain :: ops' => queued_after 0 ops'
  | MarkDrained :: ops' => queued_after n ops'
  end.

(** The buffer of [self] is a list object holding [items]. *)
Definition holds (self : Sink) (w : world) (items : list pydict) : Prop :=
  heap w !! records_to_drain self = Some (ObjList items).

(** The records passed to [load_record], in call order. *)
Fixpoint loaded (ops : list op) : list pydict :=
  match ops with
  | [] => []
  | LoadRecord record :: ops' => record :: loaded ops'
  | _ :: ops' => loaded ops'
  end.

(** The records held by the list objects of a store, in address order. *)
Fixpoint heap_records (h : list pyobj) : list pydict :=
  match h with
  | [] => []
  | ObjList items :: h' => items ++ heap_records h'
  | ObjOther _ _ :: h' => heap_records h'
  | ObjTruth _ _ _ :: h' => heap_records h'
  end.

(** Calls of the three tally methods. *)
Inductive tally : Type :=
| TallyRead (count : Z)
| TallyWritten (count : Z)
| TallyMerged (count : Z).

Definition tally_step (t : tally) (self : Sink) : Sink :=
  match t with
  | TallyRead count => tally_record_read count self
  | TallyWritten count => tally_record_written count self
  | TallyMerged count => tally_duplicate_merged count self
  end.

Definition run_tallies (ts : list tally) (self : Sink) : Sink :=
  fold_left (fun s t => tally_step t s) ts self.

Definition tally_count (t : tally) : Z :=
  match t with
  | TallyRead count | TallyWritten count | TallyMerged count => count
  end.

Definition read_sum (ts : list tally) : Z :=
  fold_right (fun t acc => match t with TallyRead c => c + acc | _ => acc end)
    0 ts.

Definition written_sum (ts : list tally) : Z :=
  fold_right (fun t acc => match t with TallyWritten c => c + acc | _ => acc end)
    0 ts.

Definition merged_sum (ts : list tally) : Z :=
  fold_right (fun t acc => match t with TallyMerged c => c + acc | _ => acc end)
    0 ts.

(** The three metadata fields, in the order they are assigned. *)
Definition sdc_keys : list string :=
  ["_sdc_extracted_at"; "_sdc_batched_at"; "_sdc_deleted_at"].

End Sink.

(** * tap_base/TapBase.py *)

Module Tap.

(** ** Text of [str()] of a list of lists of strings *)

Definition squote : ascii := "'"%char.
Definition dquote : ascii := ascii_of_nat 34.
Definition backslash : ascii := ascii_of_nat 92.

Fixpoint has_char (c : ascii) (s : string) : bool :=
  match s with
  | EmptyString => false
  | String c' s' => if Ascii.eqb c c' then true else has_char c s'
  end.

Definition hex_digit (n : nat) : ascii :=
  nth n (list_ascii_of_string "0123456789abcdef") "0"%char.

(** A text is a sequence of characters below U+0100, one character per
    [ascii].  Of these the printable ones are U+0020 to U+007E, U+00A1 to
    U+00AC and U+00AE to U+00FF; the others are control characters, the
    no-break space U+00A0 and the soft hyphen U+00AD. *)
Definition printable (n : nat) : bool :=
  ((Nat.leb 32 n && Nat.leb n 126)
   || (Nat.leb 161 n && negb (Nat.eqb n 173)))%bool.

(** One character of [repr(s)] with quote character [q]: backslash and
    the quote are escaped, tab, line feed and carriage return have their
    letters, any other character that is not printable is written
    backslash, x and two hexadecimal digits. *)
Definition repr_char (q c : ascii) : string :=
  let n := nat_of_ascii c in
  if Ascii.eqb c backslash then String backslash (String backslash EmptyString)
  else if Ascii.eqb c q then String backslash (String q EmptyString)
  else if Nat.eqb n 10 then String backslash "n"
  else if Nat.eqb n 13 then String backslash "r"
  else if Nat.eqb n 9 then String backslash "t"
  else if negb (printable n) then
    String backslash
      (String "x"%char
        (String (hex_digit (Nat.div n 16))
          (String (hex_digit (Nat.modulo n 16)) EmptyString)))
  else String c EmptyString.

Fixpoint repr_chars (q : ascii) (s : string) : string :=
  match s with
  | EmptyString => EmptyString
  | String c s' => repr_char q c +:+ repr_chars q s'
  end.

(** [repr(s)]: single quotes, unless the text has a single quote and no
    double quote. *)
Definition repr_str (s : string) : string :=
  let q := if (has_char squote s && negb (has_char dquote s))%bool
           then dquote else squote in
  String q (repr_chars q s +:+ String q EmptyString).

Fixpoint join (sep : string) (l : list string) : string :=
  match l with
  | [] => EmptyString
  | [x] => x
  | x :: l' => x +:+ sep +:+ join sep l'
  end.

Definition repr_list {A} (f : A -> string) (l : list A) : string :=
  "[" +:+ join ", " (map f l) +:+ "]".

Definition str_missing (missing : list (list string)) : string :=
  repr_list (repr_list repr_str) missing.

(** ** Connections *)

(** A connection class, seen from the tap: calling it with the
    configuration either raises or yields a new instance; [cc_truthy] is
    the truth value of its instances ([True] unless the class says
    otherwise). *)
Record conn_class : Type := mkConnClass {
  cc_name : string;
  cc_init : pydict -> option exn;
  cc_truthy : bool
}.

Record conn_instance : Type := mkConnInstance {
  inst_class : conn_class;
  inst_config : pydict
}.

(** What [_conn] can hold: [None] or a reference to an instance. *)
Inductive pyref : Type :=
| RNone
| RObj (a : nat).

Abbreviation heap := (list conn_instance).

Definition ref_bool (r : pyref) (h : heap) : bool :=
  match r with
  | RNone => false
  | RObj a =>
      match h !! a with
      | Some i => cc_truthy (inst_class i)
      | None => true
      end
  end.

(** [cls(config)] *)
Definition instantiate (cls : conn_class) (config : pydict) (h : heap)
  : pyresult (pyref * heap) :=
  match cc_init cls config with
  | Some e => Raise e
  | None => Ok (RObj (length h),
                h ++ [{| inst_class := cls; inst_config := config |}])
  end.

(** ** The tap object

    The class body declares the attributes by annotation only, so an
    instance has a value for an attribute once it has been assigned; a
    slot is [None] until then. *)
Record TapBase : Type := mkTap {
  _name : option string;
  _vers : option string;
  _capabilities : option (list string);
  _accepted_options : option (list string);
  _option_set_requirements : option (list (list string));
  _config : option pydict;
  _conn_class : option conn_class;
  _conn : option pyref
}.

(** The instance [object.__new__] yields. *)
Definition blank : TapBase :=
  {| _name := None; _vers := None; _capabilities := None;
     _accepted_options := None; _option_set_requirements := None;
     _config := None; _conn_class := None; _conn := None |}.

(** [self.name] for an attribute found only in the instance. *)
Definition attr {A} (name : string) (slot : option A) : pyresult A :=
  match slot with
  | Some v => Ok v
  | None => Raise (AttributeError name)
  end.

Definition set_conn (c : pyref) (self : TapBase) : TapBase :=
  {| _name := _name self; _vers := _vers self;
     _capabilities := _capabilities self;
     _accepted_options := _accepted_options self;
     _option_set_requirements := _option_set_requirements self;
     _config := _config self; _conn_class := _conn_class self;
     _conn := Some c |}.

Section WithClass.

(** The value bound to the name [_conn] by the classes of the instance
    other than [TapBase] (the plugin base class, a concrete subclass),
    which this file does not contain; [TapBase] itself binds none. *)
Variable class_conn : option pyref.

(** [self._conn]: the instance first, then the classes. *)
Definition attr_conn (self : TapBase) : pyresult pyref :=
  match _conn self with
  | Some c => Ok c
  | None => attr "_conn" class_conn
  end.

(** [get_connection()] *)
Definition get_connection (self : TapBase) (h : heap)
  : pyresult (pyref * TapBase * heap) :=
  c ← attr_conn self;
  '(self, h) ←
    (if negb (ref_bool c h) then
       cls ← attr "_conn_class" (_conn_class self);
       config ← attr "_config" (_config self);
       '(c', h') ← instantiate cls config h;
       Ok (set_conn c' self, h')
     else Ok (self, h));
  c ← attr_conn self;
  Ok (c, self, h).

(** [__init__(...)] on a new instance. *)
Definition __init__ (plugin_name version : string)
    (capabilities accepted_options : list string)
    (option_set_requirements : list (list string))
    (connection_class : conn_class) (config : pydict)
    (state : option pydict) (h : heap) : pyresult (TapBase * heap) :=
  let self :=
    {| _name := Some plugin_name; _vers := Some version;
       _capabilities := Some capabilities;
       _accepted_options := Some accepted_options;
       _option_set_requirements := Some option_set_requirements;
       _config := Some config; _conn_class := Some connection_class;
       _conn := _conn blank |} in
  '(c, self, h) ← get_connection self h;
  Ok (set_conn c self, h).

(** [n] calls of [get_connection()] one after the other, with the values
    they return. *)
Fixpoint get_connections (n : nat) (self : TapBase) (h : heap)
  : pyresult (list pyref * TapBase * heap) :=
  match n with
  | O => Ok ([], self, h)
  | S n' =>
      '(c, self, h) ← get_connection self h;
      '(cs, self, h) ← get_connections n' self h;
      Ok (c :: cs, self, h)
  end.

End WithClass.

(** ** Configuration validation *)

(** [x in l] for strings *)
Definition str_in (x : string) (l : list string) : bool :=
  existsb (String.eqb x) l.

Definition unexpected_option (k : string) : string :=
  "Unexpected config option found: " +:+ k +:+ ".".

Definition missing_options (missing : list (list string)) : string :=
  "One or more required config options are missing. "
  +:+ "Please complete one or more of the following sets: "
  +:+ str_missing missing.

Fixpoint warnings_loop (self : TapBase) (keys : list string)
    (warnings : list string) : pyresult (list string) :=
  match keys with
  | [] => Ok warnings
  | k :: keys' =>
      accepted ← attr "_accepted_options" (_accepted_options self);
      if negb (str_in k accepted)
      then warnings_loop self keys' (warnings ++ [unexpected_option k])
      else warnings_loop self keys' warnings
  end.

Fixpoint required_loop (self : TapBase) (required_sets : list (list string))
    (matched_any : bool) (missing : list (list string))
  : pyresult (bool * list (list string)) :=
  match required_sets with
  | [] => Ok (matched_any, missing)
  | required_set :: rest =>
      config ← attr "_config" (_config self);
      if forallb (fun x => str_in x (Dict.keys config)) required_set
      then required_loop self rest true missing
      else required_loop self rest matched_any
             (missing ++
              [List.filter (fun x => negb (str_in x (Dict.keys config)))
                      required_set])
  end.

Definition validate_config (self : TapBase)
  : pyresult (list string * list string) :=
  config ← attr "_config" (_config self);
  warnings ← warnings_loop self (Dict.keys config) [];
  requirements ← attr "_option_set_requirements"
                   (_option_set_requirements self);
  errors ←
    (match requirements with
     | [] => Ok []
     | _ :: _ =>
         '(matched_any, missing) ← required_loop self requirements false [];
         if negb matched_any then Ok [missing_options missing] else Ok []
     end);
  Ok (warnings, errors).

Definition get_plugin_name (self : TapBase) : pyresult string :=
  attr "_name" (_name self).

Definition get_plugin_version (self : TapBase) : pyresult string :=
  attr "_vers" (_vers self).

Definition get_capabilities (self : TapBase) : pyresult (list string) :=
  attr "_capabilities" (_capabilities self).

Definition get_config (self : TapBase) (config_key : string)
    (default : pyval) : pyresult pyval :=
  config ← attr "_config" (_config self);
  Ok (match Dict.lookup config_key config with
      | Some v => v
      | None => default
      end).

(** ** Catalog *)

(** The catalog class and the serializer come from outside the file, and
    so does the file system; [get_catalog] is a method a concrete tap
    overrides, so [write_catalog_file] takes the method the instance
    resolves to. *)
Section CatalogFile.

Variable catalog : Type.
Variable to_dict : catalog -> pyval.
Variable dumps : pyval -> pyresult string.
Variable FS : Type.
Variable write_text : string -> string -> FS -> pyresult Z * FS.

(** [get_catalog()] of the base class: a bare [return]. *)
Definition get_catalog (self : TapBase) : option catalog := None.

(** [write_catalog_file(outfile)]: the argument of [write_text] is
    evaluated before the call. *)
Definition write_catalog_file (get_catalog : TapBase -> option catalog)
    (self : TapBase) (outfile : string) (fs : FS) : pyresult string * FS :=
  match get_catalog self with
  | None => (Raise (AttributeError "to_dict"), fs)
  | Some c =>
      match dumps (to_dict c) with
      | Raise e => (Raise e, fs)
      | Ok text =>
          match write_text outfile text fs with
          | (Ok _, fs') => (Ok outfile, fs')
          | (Raise e, fs') => (Raise e, fs')
          end
      end
  end.

End CatalogFile.

End Tap.

(** * tests/sample_tap_snowflake/SampleTapSnowfakeConnection.py *)

Module SampleConnection.

Abbreviation row := pydict.

(** What the call does to the warehouse client, in order. *)
Inductive event : Type :=
| EvConnect
| EvCursor
| EvExecute (sql : string)
| EvFetchAll
| EvCursorClose
| EvConnectionClose.

(** The [query] argument: [isinstance(query, list)] or not. *)
Inductive query_arg : Type :=
| QueryList (statements : list string)
| QueryOne (statement : string).

(** The names the module binds: its imports and its one class. *)
Definition module_globals : list string :=
  ["Path"; "TapConnectionBase"; "Any"; "Dict"; "List"; "Tuple"; "TapBase";
   "SampleTapSnowflakeStream"; "utils"; "snowflake";
   "SampleTapSnowflakeConnection"].

(** Evaluating a global name that is not a builtin. *)
Definition load_global (name : string) : pyresult () :=
  if existsb (String.eqb name) module_globals then Ok ()
  else Raise (NameError name).

(** The exception [raise TooManyRecordsException(...)] ends with: the
    callee name is evaluated first, then the message. *)
Definition raise_too_many_records (max_records : Z) : exn :=
  match load_global "TooManyRecordsException" with
  | Raise e => e
  | Ok _ =>
      TooManyRecordsException
        ("Query returned too many records. "
         +:+ "This query can return max " +:+ Fmt.int_str max_records
         +:+ " records.")
  end.

Fixpoint executed (tr : list event) : list string :=
  match tr with
  | [] => []
  | EvExecute sql :: tr' => sql :: executed tr'
  | _ :: tr' => executed tr'
  end.

Definition is_connect (e : event) : bool :=
  match e with EvConnect => true | _ => false end.

Definition is_cursor (e : event) : bool :=
  match e with EvCursor => true | _ => false end.

Definition is_fetch (e : event) : bool :=
  match e with EvFetchAll => true | _ => false end.

(** The events of the statement loop. *)
Definition statement_event (e : event) : bool :=
  match e with
  | EvExecute _ | EvFetchAll => true
  | _ => false
  end.

(** The rows of the last outcome whose row count is positive. *)
Definition last_positive (outs : list (Z * list row)) : list row :=
  match last (List.filter (fun o => 0 <? fst o) outs) with
  | Some o => snd o
  | None => []
  end.

Section Warehouse.

(** The warehouse and its client library are outside the repository:
    [connect_with_backoff] (of the connection base class) acquires a
    connection or raises; [execute] runs one statement and reports the
    cursor's row count and its rows, or raises. *)
Variable DB : Type.
Variable connect_with_backoff : DB -> pyresult () * DB.
Variable execute : string -> pyval -> DB -> pyresult (Z * list row) * DB.

Record world : Type := mkWorld {
  db : DB;
  trace : list event
}.

Definition emit (e : event) (w : world) : world :=
  {| db := db w; trace := trace w ++ [e] |}.

(** The [for sql in queries] loop; [result] is the local variable. *)
Fixpoint run_queries (queries : list string) (params : pyval)
    (max_records : Z) (result : list row) (w : world)
  : pyresult (list row) * world :=
  match queries with
  | [] => (Ok result, w)
  | sql :: queries' =>
      let w := emit (EvExecute sql) w in
      match execute sql params (db w) with
      | (Raise e, d) => (Raise e, {| db := d; trace := trace w |})
      | (Ok (rowcount, rows), d) =>
          let w := {| db := d; trace := trace w |} in
          if (negb (max_records =? 0) && (rowcount >? max_records))%bool
          then (Raise (raise_too_many_records max_records), w)
          else if rowcount >? 0
          then run_queries queries' params max_records rows
                 (emit EvFetchAll w)
          else run_queries queries' params max_records result w
      end
  end.

(** [query(query, params, max_records)]; both [with] blocks are left
    in reverse order whether the body returns or raises. *)
Definition query (query : query_arg) (params : pyval) (max_records : Z)
    (w : world) : pyresult (list row) * world :=
  match connect_with_backoff (db w) with
  | (Raise e, d) => (Raise e, {| db := d; trace := trace w |})
  | (Ok _, d) =>
      let w := emit EvConnect {| db := d; trace := trace w |} in
      let w := emit EvCursor w in
      let queries :=
        match query with
        | QueryList statements => "START TRANSACTION" :: statements
        | QueryOne statement => [statement]
        end in
      let '(r, w) := run_queries queries params max_records [] w in
      (r, emit EvConnectionClose (emit EvCursorClose w))
  end.

(** What each statement reports when the statements are executed one
    after the other, up to the first that raises. *)
Fixpoint outcomes (queries : list string) (params : pyval) (d : DB)
  : list (Z * list row) :=
  match queries with
  | [] => []
  | sql :: queries' =>
      match execute sql params d with
      | (Ok o, d') => o :: outcomes queries' params d'
      | (Raise _, _) => []
      end
  end.

End Warehouse.

(** The statements a call executes: the local variable [queries]. *)
Definition statements_of (q : query_arg) : list string :=
  match q with
  | QueryList statements => "START TRANSACTION" :: statements
  | QueryOne statement => [statement]
  end.

Arguments db {DB} w.
Arguments trace {DB} w.
Arguments mkWorld {DB} db trace.

End SampleConnection.

(** * Concrete instances used to run the definitions *)

Module Samples.

(** A detector that reads the [format] of a descriptor. *)
Definition detect (key : string) (descriptor : pyval) : option string :=
  match descriptor with
  | VDict d =>
      match Dict.lookup "format" d with
      | Some (VStr f) => Some f
      | _ => None
      end
  | _ => None
  end.

(** A parser that knows one date. *)
Definition parse (v : pyval) : pyresult pyval :=
  match v with
  | VStr s =>
      if String.eqb s "2021-03-07"
      then Ok (VDatetime (mkDatetime 2021 3 7 0 0 0 0))
      else Raise (ValueError "Unknown string format")
  | _ => Raise (TypeError "Parser must be a string")
  end.

(** The repair routine as the treatments are described: [ERROR] raises,
    [MAX] clamps, [NULL] clears. *)
Definition repair (record : pydict) (path : list string) (raw : pyval)
    (kind : string) (ex : exn) (t : Sink.DatetimeErrorTreatmentEnum)
  : pyresult pyval :=
  match t with
  | Sink.ERROR => Raise (ValueError "Could not parse value")
  | Sink.MAX => Ok (VDatetime (mkDatetime 9999 12 31 23 59 59 999999))
  | Sink.NULL => Ok VNone
  end.

Definition date_schema : pydict :=
  [("properties",
    VDict [("id", VDict [("type", VStr "integer")]);
           ("created", VDict [("type", VStr "string");
                              ("format", VStr "date-time")]);
           ("updated", VDict [("type", VStr "string");
                              ("format", VStr "date-time")])])].

Definition date_record : pydict :=
  [("id", VInt 7); ("created", VStr "2021-03-07"); ("updated", VStr "soon")].

(** A record whose date field parses, and one without date fields. *)
Definition good_record : pydict :=
  [("id", VInt 7); ("created", VStr "2021-03-07")].

Definition plain_record : pydict := [("id", VInt 7)].

Definition date_properties : pydict :=
  [("id", VDict [("type", VStr "integer")]);
   ("created", VDict [("type", VStr "string"); ("format", VStr "date-time")]);
   ("updated", VDict [("type", VStr "string"); ("format", VStr "date-time")])].

Definition a_sink : Sink.Sink :=
  fst (Sink.__init__ [] "orders" date_schema None (Sink.mkWorld [] [])).

Definition a_world : Sink.world :=
  snd (Sink.__init__ [] "orders" date_schema None (Sink.mkWorld [] [])).

Definition rec_a : pydict := [("id", VInt 1)].
Definition rec_b : pydict := [("id", VInt 2)].
Definition rec_c : pydict := [("id", VInt 3)].

Definition a_conn_class : Tap.conn_class :=
  {| Tap.cc_name := "SampleTapSnowflakeConnection";
     Tap.cc_init := fun _ => None;
     Tap.cc_truthy := true |}.

(** A tap object with every attribute that [Tap.__init__] assigns before
    it asks for the connection. *)
Definition a_tap (accepted : list string) (sets : list (list string))
    (config : pydict) : Tap.TapBase :=
  {| Tap._name := Some "sample-tap"; Tap._vers := Some "0.1";
     Tap._capabilities := Some ["sync"];
     Tap._accepted_options := Some accepted;
     Tap._option_set_requirements := Some sets;
     Tap._config := Some config;
     Tap._conn_class := Some a_conn_class;
     Tap._conn := None |}.

(** A warehouse without state: a transaction start reports one status
    row, one query has two rows, anything else reports no rows. *)
Definition status_row : pydict :=
  [("status", VStr "Statement executed successfully.")].

Definition two_rows : list pydict := [[("N", VInt 1)]; [("N", VInt 2)]].

Definition wh_connect (d : unit) : pyresult () * unit := (Ok (), d).

Definition wh_execute (sql : string) (params : pyval) (d : unit)
  : pyresult (Z * list pydict) * unit :=
  if String.eqb sql "START TRANSACTION" then (Ok (1, [status_row]), d)
  else if String.eqb sql "SELECT N FROM T" then (Ok (2, two_rows), d)
  else (Ok (0, []), d).

Definition wh_start : SampleConnection.world unit :=
  SampleConnection.mkWorld tt [].

End Samples.

(** * Properties *)

(** ** Dictionaries *)

(** Reduce a bind of the error monad whose first computation is known. *)
Ltac bind_step := unfold mbind, result_bind; cbn beta iota.

Section DictFacts.

Implicit Types (k : string) (v : pyval) (d : pydict).

Lemma lookup_setitem_eq k v d :
  Dict.lookup k (Dict.setitem k v d) = Some v.
Proof.
  induction d as [|[k' v'] d IH]; simpl.
  - now rewrite String.eqb_refl.
  - destruct (String.eqb k k') eqn:E; simpl; rewrite E; auto.
Qed.

Lemma lookup_setitem_ne k k' v d :
  k <> k' -> Dict.lookup k' (Dict.setitem k v d) = Dict.lookup k' d.
Proof.
  intros Hne. induction d as [|[k0 v0] d IH]; simpl.
  - apply not_eq_sym, String.eqb_neq in Hne. now rewrite Hne.
  - destruct (String.eqb k k0) eqn:E; simpl.
    + apply String.eqb_eq in E. subst k0.
      apply not_eq_sym, String.eqb_neq in Hne. now rewrite Hne.
    + now rewrite IH.
Qed.

Lemma get_setitem_ne k k' v d :
  k <> k' -> Dict.get k' (Dict.setitem k v d) = Dict.get k' d.
Proof. intros. unfold Dict.get. now rewrite lookup_setitem_ne. Qed.

Lemma lookup_Some_keys k v d : Dict.lookup k d = Some v -> In k (Dict.keys d).
Proof.
  induction d as [|[k' v'] d IH]; simpl; [discriminate|].
  destruct (String.eqb k k') eqn:E.
  - apply String.eqb_eq in E. auto.
  - auto.
Qed.

Lemma lookup_None_keys k d : Dict.lookup k d = None <-> ~ In k (Dict.keys d).
Proof.
  induction d as [|[k' v'] d IH]; simpl; [tauto|].
  destruct (String.eqb k k') eqn:E.
  - apply String.eqb_eq in E. split; [discriminate|]. intros H. exfalso. auto.
  - apply String.eqb_neq in E. rewrite IH. split.
    + intros H [H1|H1]; [congruence | auto].
    + intros H H1. auto.
Qed.

Lemma keys_setitem_present k v d :
  In k (Dict.keys d) -> Dict.keys (Dict.setitem k v d) = Dict.keys d.
Proof.
  induction d as [|[k' v'] d IH]; simpl; [tauto|].
  destruct (String.eqb k k') eqn:E; simpl; [reflexivity|].
  apply String.eqb_neq in E.
  intros [H|H]; [congruence|]. now rewrite IH.
Qed.

End DictFacts.

(** ** The sink: metadata stamping *)

(** C1.  After [_add_metadata_values_to_record(record, message)] the record
    has [_sdc_extracted_at] equal to the message's [time_extracted] ([None]
    when the message has none), [_sdc_batched_at] equal to the ISO-8601 text
    of the clock reading, and [_sdc_deleted_at] equal to what the record
    carried under that key before the call ([None] when it carried nothing);
    every other field is as it was. *)
Theorem add_metadata_values_to_record_spec (now : datetime)
    (record message : pydict) :
  let record' := Sink._add_metadata_values_to_record now record message in
  Dict.lookup "_sdc_extracted_at" record'
    = Some (match Dict.lookup "time_extracted" message with
            | Some t => t
            | None => VNone
            end)
  /\ Dict.lookup "_sdc_batched_at" record' = Some (VStr (isoformat now))
  /\ Dict.lookup "_sdc_deleted_at" record'
    = Some (match Dict.lookup "_sdc_deleted_at" record with
            | Some t => t
            | None => VNone
            end)
  /\ forall k, k <> "_sdc_extracted_at" -> k <> "_sdc_batched_at" ->
       k <> "_sdc_deleted_at" -> Dict.lookup k record' = Dict.lookup k record.
Proof.
  unfold Sink._add_metadata_values_to_record. cbv zeta.
  repeat split.
  - rewrite !lookup_setitem_ne by discriminate. apply lookup_setitem_eq.
  - rewrite lookup_setitem_ne by discriminate. apply lookup_setitem_eq.
  - rewrite lookup_setitem_eq. f_equal.
    rewrite !get_setitem_ne by discriminate. reflexivity.
  - intros k H1 H2 H3.
    rewrite !lookup_setitem_ne by congruence. reflexivity.
Qed.

Example isoformat_whole_second :
  isoformat (mkDatetime 2021 3 7 9 5 0 0) = "2021-03-07T09:05:00".
Proof. vm_compute. reflexivity. Qed.

Example isoformat_fraction :
  isoformat (mkDatetime 2021 3 7 9 5 0 1250) = "2021-03-07T09:05:00.001250".
Proof. vm_compute. reflexivity. Qed.

Example add_metadata_values_run :
  Sink._add_metadata_values_to_record (mkDatetime 2021 3 7 9 5 0 0)
    [("id", VInt 1)] [("type", VStr "RECORD")]
  = [("id", VInt 1); ("_sdc_extracted_at", VNone);
     ("_sdc_batched_at", VStr "2021-03-07T09:05:00");
     ("_sdc_deleted_at", VNone)].
Proof. vm_compute. reflexivity. Qed.

(** ** The sink: buffer and drain cycle *)

Section SinkBuffer.

Import Sink.

Lemma holds_current_size self w items :
  holds self w items -> current_size self w = Ok (Z.of_nat (length items)).
Proof.
  unfold holds, current_size, deref. intros ->. reflexivity.
Qed.

Lemma init_holds cfg name sch kp w0 :
  holds (fst (__init__ cfg name sch kp w0)) (snd (__init__ cfg name sch kp w0)) [].
Proof.
  unfold holds, __init__, alloc. simpl.
  apply list_lookup_middle. reflexivity.
Qed.

Lemma load_record_holds record self w items :
  holds self w items ->
  exists w', load_record record self w = Ok w'
    /\ holds self w' (items ++ [record])
    /\ forall a, a <> records_to_drain self -> heap w' !! a = heap w !! a.
Proof.
  unfold holds, load_record, deref. intros H. rewrite H. simpl.
  eexists. split; [reflexivity|]. simpl. split.
  - apply list_lookup_insert_eq. eapply lookup_lt_Some, H.
  - intros a Ha. apply list_lookup_insert_ne. congruence.
Qed.

Lemma load_records_hold records : forall self w items,
  holds self w items ->
  exists w', run (map LoadRecord records) (self, w) = Ok (self, w')
    /\ holds self w' (items ++ records)
    /\ forall a, a <> records_to_drain self -> heap w' !! a = heap w !! a.
Proof.
  induction records as [|r records IH]; intros self w items H; simpl.
  - exists w. rewrite app_nil_r. auto.
  - destruct (load_record_holds r self w items H) as (w1 & E1 & H1 & F1).
    rewrite E1. simpl.
    destruct (IH self w1 _ H1) as (w2 & E2 & H2 & F2).
    exists w2. split; [exact E2|]. split.
    + now rewrite <- app_assoc in H2.
    + intros a Ha. rewrite F2, F1; auto.
Qed.

Lemma start_drain_holds self w items :
  holds self w items ->
  let '(batch, self', w') := start_drain self w in
  batch = records_to_drain self
  /\ heap w' !! batch = Some (ObjList items)
  /\ _records_draining self' = Some batch
  /\ holds self' w' []
  /\ records_to_drain self' <> batch.
Proof.
  unfold holds, start_drain, alloc. simpl. intros H.
  pose proof (lookup_lt_Some _ _ _ H) as Hlt.
  split; [reflexivity|]. split; [|split; [reflexivity|split]].
  - rewrite lookup_app_l; assumption.
  - apply list_lookup_middle. reflexivity.
  - lia.
Qed.

Lemma step_holds o self w items :
  holds self w items ->
  exists self' w' items', step o (self, w) = Ok (self', w')
    /\ holds self' w' items'
    /\ length items' = queued_after (length items) [o].
Proof.
  intros H. destruct o as [r| |]; cbn [step queued_after].
  - destruct (load_record_holds r self w items H) as (w1 & E1 & H1 & _).
    rewrite E1. exists self, w1, (items ++ [r]).
    split; [reflexivity|]. split; [exact H1|].
    rewrite length_app. simpl. lia.
  - pose proof (start_drain_holds self w items H) as S.
    destruct (start_drain self w) as [[batch self'] w'].
    destruct S as (_ & _ & _ & S & _).
    exists self', w', []. split; [reflexivity|]. split; [exact S|reflexivity].
  - exists (mark_drained self), w, items.
    split; [reflexivity|]. split; [exact H|reflexivity].
Qed.

Lemma run_holds ops : forall self w items,
  holds self w items ->
  exists self' w' items', run ops (self, w) = Ok (self', w')
    /\ holds self' w' items'
    /\ length items' = queued_after (length items) ops.
Proof.
  induction ops as [|o ops IH]; intros self w items H.
  - exists self, w, items. auto.
  - destruct (step_holds o self w items H) as (s1 & w1 & i1 & E1 & H1 & L1).
    destruct (IH s1 w1 i1 H1) as (s2 & w2 & i2 & E2 & H2 & L2).
    exists s2, w2, i2. cbn [run]. rewrite E1. simpl. split; [exact E2|].
    split; [exact H2|]. rewrite L2, L1. destruct o; reflexivity.
Qed.

End SinkBuffer.

(** C3.  On a sink whose buffer holds [held] and to which [rs] are then
    passed by [load_record], [start_drain()] returns a batch that is
    [held ++ rs] in that order, stores the same batch as
    [_records_draining], and leaves [records_to_drain] an empty list, so
    that [current_size] is 0; records loaded afterwards go to the new
    buffer and the batch returned is still [held ++ rs]. *)
Theorem start_drain_fifo (self : Sink.Sink) (w : Sink.world)
    (held rs later : list pydict) :
  Sink.heap w !! Sink.records_to_drain self = Some (Sink.ObjList held) ->
  exists w1,
    Sink.run (map Sink.LoadRecord rs) (self, w) = Ok (self, w1)
    /\ let '(batch, self2, w2) := Sink.start_drain self w1 in
       Sink.heap w2 !! batch = Some (Sink.ObjList (held ++ rs))
       /\ Sink._records_draining self2 = Some batch
       /\ Sink.heap w2 !! Sink.records_to_drain self2 = Some (Sink.ObjList [])
       /\ Sink.current_size self2 w2 = Ok 0
       /\ exists w3,
            Sink.run (map Sink.LoadRecord later) (self2, w2) = Ok (self2, w3)
            /\ Sink.heap w3 !! batch = Some (Sink.ObjList (held ++ rs))
            /\ Sink.heap w3 !! Sink.records_to_drain self2
               = Some (Sink.ObjList later).
Proof.
  intros H.
  destruct (load_records_hold rs self w held H) as (w1 & E1 & H1 & _).
  exists w1. split; [exact E1|].
  pose proof (start_drain_holds self w1 _ H1) as S.
  destruct (Sink.start_drain self w1) as [[batch self2] w2].
  destruct S as (_ & Hb & Hd & Hn & Hne).
  split; [exact Hb|]. split; [exact Hd|]. split; [exact Hn|].
  split; [exact (holds_current_size _ _ _ Hn)|].
  destruct (load_records_hold later self2 w2 [] Hn) as (w3 & E3 & H3 & F3).
  exists w3. split; [exact E3|]. split.
  - rewrite F3; auto.
  - exact H3.
Qed.

Lemma start_drain_fifo_witness :
  exists w1,
    Sink.run (map Sink.LoadRecord [Samples.rec_a; Samples.rec_b; Samples.rec_c])
      (Samples.a_sink, Samples.a_world) = Ok (Samples.a_sink, w1)
    /\ let '(batch, self2, w2) := Sink.start_drain Samples.a_sink w1 in
       Sink.heap w2 !! batch
         = Some (Sink.ObjList
                   ([] ++ [Samples.rec_a; Samples.rec_b; Samples.rec_c]))
       /\ Sink._records_draining self2 = Some batch
       /\ Sink.heap w2 !! Sink.records_to_drain self2 = Some (Sink.ObjList [])
       /\ Sink.current_size self2 w2 = Ok 0
       /\ exists w3,
            Sink.run (map Sink.LoadRecord [Samples.rec_a]) (self2, w2)
              = Ok (self2, w3)
            /\ Sink.heap w3 !! batch
               = Some (Sink.ObjList
                         ([] ++ [Samples.rec_a; Samples.rec_b; Samples.rec_c]))
            /\ Sink.heap w3 !! Sink.records_to_drain self2
               = Some (Sink.ObjList [Samples.rec_a]).
Proof.
  apply (start_drain_fifo Samples.a_sink Samples.a_world []
           [Samples.rec_a; Samples.rec_b; Samples.rec_c] [Samples.rec_a]).
  reflexivity.
Defined.

Example start_drain_run :
  let '(batch, self2, w2) :=
    Sink.start_drain Samples.a_sink
      {| Sink.heap := [Sink.ObjList [Samples.rec_a; Samples.rec_b; Samples.rec_c]];
         Sink.logged := [] |} in
  (Sink.heap w2 !! batch, Sink.current_size self2 w2)
  = (Some (Sink.ObjList [Samples.rec_a; Samples.rec_b; Samples.rec_c]), Ok 0).
Proof. reflexivity. Qed.

(** C9.  The base [drain] returns without raising on the empty batch and
    raises [NotImplementedError] on every batch with at least one record;
    for any batch object it raises exactly when the batch is true. *)
Theorem drain_base_spec (self : Sink.Sink) :
  Sink.drain self (Sink.ObjList []) = Ok ()
  /\ (forall r rs,
        Sink.drain self (Sink.ObjList (r :: rs))
        = Raise (NotImplementedError
            "Records were found to be drained and no handling exists for drain()."))
  /\ (forall batch,
        Sink.py_bool batch = false <-> Sink.drain self batch = Ok ())
  /\ (forall batch,
        Sink.py_bool batch = true <->
        Sink.drain self batch
        = Raise (NotImplementedError
            "Records were found to be drained and no handling exists for drain().")).
Proof.
  split; [reflexivity|]. split; [reflexivity|].
  split; intros batch; unfold Sink.drain;
    destruct (Sink.py_bool batch); split; congruence.
Qed.

(** C10.  From a new sink, every sequence of [load_record], [start_drain]
    and [mark_drained] runs without raising and leaves a list buffer whose
    length is the number of records loaded since the last [start_drain];
    [current_size] is that length, [max_size] is 10000, and [is_full] is
    true exactly when [current_size >= max_size].  A new sink has size 0
    and is not full; after 10000 [load_record] calls it has size 10000 and
    is full. *)
Theorem buffer_size_invariant (target_config : pydict) (name : string)
    (schema : pydict) (key_properties : option (list string))
    (w0 : Sink.world) (ops : list Sink.op) :
  let st0 := Sink.__init__ target_config name schema key_properties w0 in
  (exists self w items,
      Sink.run ops st0 = Ok (self, w)
      /\ Sink.heap w !! Sink.records_to_drain self = Some (Sink.ObjList items)
      /\ length items = Sink.queued_after 0 ops
      /\ Sink.current_size self w = Ok (Z.of_nat (length items))
      /\ Sink.max_size self = 10000
      /\ exists full, Sink.is_full self w = Ok full
           /\ (full = true <-> Z.of_nat (length items) >= Sink.max_size self))
  /\ Sink.current_size (fst st0) (snd st0) = Ok 0
  /\ Sink.is_full (fst st0) (snd st0) = Ok false
  /\ forall rs, Z.of_nat (length rs) = 10000 ->
       exists w, Sink.run (map Sink.LoadRecord rs) st0 = Ok (fst st0, w)
         /\ Sink.current_size (fst st0) w = Ok 10000
         /\ Sink.is_full (fst st0) w = Ok true.
Proof.
  intros st0.
  pose proof (init_holds target_config name schema key_properties w0) as H0.
  fold st0 in H0. split; [|split; [|split]].
  - destruct st0 as [s0 wi] eqn:E0. simpl in H0.
    destruct (run_holds ops s0 wi [] H0) as (self & w & items & E & H & L).
    exists self, w, items. split; [exact E|]. split; [exact H|].
    split; [exact L|].
    pose proof (holds_current_size _ _ _ H) as C.
    split; [exact C|]. split; [reflexivity|].
    exists (Z.of_nat (length items) >=? Sink.max_size self).
    split.
    + unfold Sink.is_full. rewrite C. reflexivity.
    + rewrite Z.geb_leb, Z.leb_le. lia.
  - exact (holds_current_size _ _ _ H0).
  - unfold Sink.is_full. rewrite (holds_current_size _ _ _ H0). reflexivity.
  - intros rs Hlen.
    destruct st0 as [s0 wi] eqn:E0. simpl in *.
    destruct (load_records_hold rs s0 wi [] H0) as (w & E & H & _).
    exists w. split; [exact E|].
    pose proof (holds_current_size _ _ _ H) as C. simpl in C.
    rewrite Hlen in C. split; [exact C|].
    unfold Sink.is_full. rewrite C. reflexivity.
Qed.

Example buffer_run :
  match Sink.run [Sink.LoadRecord Samples.rec_a; Sink.LoadRecord Samples.rec_b;
                  Sink.StartDrain; Sink.LoadRecord Samples.rec_c;
                  Sink.MarkDrained]
          (Samples.a_sink, Samples.a_world) with
  | Ok (self, w) =>
      (Sink.current_size self w, Sink.is_full self w,
       Sink._records_draining self, Sink.heap w)
      = (Ok 1, Ok false, None,
         [Sink.ObjList [Samples.rec_a; Samples.rec_b]; Sink.ObjList [Samples.rec_c]])
  | Raise _ => False
  end.
Proof. reflexivity. Qed.

(** ** The sink: timestamp repair *)

Section TimestampRepair.

Import Sink.

Variable detect : string -> pyval -> option string.
Variable parse : pyval -> pyresult pyval.
Variable repair :
  pydict -> list string -> pyval -> string -> exn ->
  DatetimeErrorTreatmentEnum -> pyresult pyval.

Implicit Types (k : string) (v : pyval) (done todo record : pydict).

Lemma lookup_app_first k v done todo :
  ~ In k (Dict.keys done) ->
  Dict.lookup k (done ++ (k, v) :: todo) = Some v.
Proof.
  induction done as [|[k0 v0] done IH]; simpl; intros H.
  - now rewrite String.eqb_refl.
  - destruct (String.eqb k k0) eqn:E.
    + apply String.eqb_eq in E. exfalso. auto.
    + auto.
Qed.

Lemma setitem_app_first k v x done todo :
  ~ In k (Dict.keys done) ->
  Dict.setitem k x (done ++ (k, v) :: todo) = done ++ (k, x) :: todo.
Proof.
  induction done as [|[k0 v0] done IH]; simpl; intros H.
  - now rewrite String.eqb_refl.
  - destruct (String.eqb k k0) eqn:E.
    + apply String.eqb_eq in E. exfalso. auto.
    + rewrite IH; auto.
Qed.

(** One iteration that does not raise rewrites the field in place. *)
Lemma validate_field_ok schema treatment k v done todo record' :
  ~ In k (Dict.keys done) ->
  validate_field detect parse repair schema treatment k
    (done ++ (k, v) :: todo) = Ok record' ->
  exists v', record' = done ++ (k, v') :: todo
    /\ field_result detect parse repair schema treatment
         (done ++ (k, v) :: todo) k v v'.
Proof.
  intros Hk. unfold validate_field, field_result, Dict.getitem, Dict.get.
  rewrite (lookup_app_first k v done todo Hk).
  destruct (Dict.lookup "properties" schema) as [properties|]; [|bind_step; discriminate].
  bind_step.
  destruct properties as [| | | | |l|props]; try (bind_step; discriminate).
  unfold subscript, Dict.getitem.
  destruct (Dict.lookup k props) as [descriptor|] eqn:Ed;
    [|bind_step; discriminate].
  bind_step.
  destruct (datelike (detect k descriptor)) as [ty|] eqn:Ety.
  - destruct (parse v) as [parsed|ex] eqn:Ep.
    + bind_step. intros [= <-]. exists parsed.
      rewrite setitem_app_first by assumption. split; [reflexivity|].
      exists props, descriptor. rewrite Ety. auto.
    + destruct (repair _ _ _ _ _ _) as [fixed|e] eqn:Er; [|bind_step; discriminate].
      bind_step. intros [= <-]. exists fixed.
      rewrite setitem_app_first by assumption. split; [reflexivity|].
      exists props, descriptor. rewrite Ety. auto.
  - intros [= <-]. exists v. split; [reflexivity|].
    exists props, descriptor. rewrite Ety. auto.
Qed.

(** The loop, started on the fields still to do. *)
Lemma validate_loop_ok schema treatment : forall todo done record',
  NoDup (Dict.keys (done ++ todo)) ->
  validate_loop detect parse repair schema treatment (Dict.keys todo)
    (done ++ todo) = (Ok (), record') ->
  exists todo', record' = done ++ todo'
    /\ forall j k v, todo !! j = Some (k, v) ->
         exists v', todo' !! j = Some (k, v')
           /\ field_result detect parse repair schema treatment
                (done ++ take j todo' ++ drop j todo) k v v'.
Proof.
  induction todo as [|[k v] todo IH]; intros done record' Hnd; simpl.
  - intros [= <-]. exists []. split; [reflexivity|]. intros j k v H.
    destruct j; discriminate.
  - assert (Hk : ~ In k (Dict.keys done)).
    { unfold Dict.keys in Hnd. rewrite map_app in Hnd. simpl in Hnd.
      apply NoDup_ListNoDup in Hnd.
      apply List.NoDup_remove_2 in Hnd. intros H. apply Hnd.
      apply in_or_app. auto. }
    destruct (validate_field _ _ _ _ _ _ _) as [r1|e] eqn:E1; [|bind_step; discriminate].
    destruct (validate_field_ok _ _ _ _ _ _ _ Hk E1) as (v1 & -> & F1).
    intros Hloop.
    replace (done ++ (k, v1) :: todo) with ((done ++ [(k, v1)]) ++ todo)
      in Hloop by now rewrite <- app_assoc.
    apply IH in Hloop.
    + destruct Hloop as (todo' & -> & Hall).
      exists ((k, v1) :: todo'). split; [now rewrite <- app_assoc|].
      intros [|j] k0 v0 H; simpl in H.
      * injection H as <- <-. exists v1. split; [reflexivity|]. exact F1.
      * destruct (Hall j k0 v0 H) as (v' & Hv' & F). exists v'.
        split; [exact Hv'|]. simpl. now rewrite <- app_assoc in F.
    + unfold Dict.keys in *. rewrite !map_app in *. simpl in *.
      now rewrite <- app_assoc.
Qed.

(** A key whose descriptor lookup fails makes the loop raise. *)
Lemma validate_loop_missing schema treatment k :
  (forall properties, Dict.lookup "properties" schema = Some (VDict properties)
     -> Dict.lookup k properties = None) ->
  forall keys record, In k keys ->
  raises (fst (validate_loop detect parse repair schema treatment keys record)).
Proof.
  intros Hmiss keys. induction keys as [|k0 keys IH]; intros record Hin.
  - destruct Hin.
  - simpl. destruct (validate_field _ _ _ _ _ _ _) as [r1|e] eqn:E1.
    + destruct Hin as [->|Hin]; [|now apply IH].
      exfalso. revert E1. unfold validate_field, Dict.getitem.
      destruct (Dict.lookup "properties" schema) as [properties|] eqn:Ep;
        [|bind_step; discriminate].
      bind_step.
      destruct properties as [| | | | |l|props]; try (bind_step; discriminate).
      unfold subscript, Dict.getitem. now rewrite (Hmiss props eq_refl).
    + exists e. reflexivity.
Qed.

(** One iteration returns when the field has a descriptor and, if it is
    date-like and its value does not parse, the repair routine returns a
    value. *)
Lemma validate_field_returns schema treatment properties descriptor k v
    done todo :
  ~ In k (Dict.keys done) ->
  Dict.lookup "properties" schema = Some (VDict properties) ->
  Dict.lookup k properties = Some descriptor ->
  (forall ty ex current,
     datelike (detect k descriptor) = Some ty -> parse v = Raise ex ->
     exists v', repair current [k] v ty ex treatment = Ok v') ->
  exists v',
    validate_field detect parse repair schema treatment k
      (done ++ (k, v) :: todo) = Ok (done ++ (k, v') :: todo).
Proof.
  intros Hk Hp Hd Hrep. unfold validate_field, Dict.getitem, Dict.get.
  rewrite Hp. bind_step. unfold subscript, Dict.getitem.
  rewrite Hd, (lookup_app_first k v done todo Hk).
  destruct (datelike (detect k descriptor)) as [ty|] eqn:Ety.
  - destruct (parse v) as [parsed|ex] eqn:Ep.
    + exists parsed. now rewrite setitem_app_first.
    + destruct (Hrep ty ex (done ++ (k, v) :: todo) eq_refl eq_refl)
        as (v' & ->).
      exists v'. now rewrite setitem_app_first.
  - exists v. reflexivity.
Qed.

(** The loop returns when every iteration does. *)
Lemma validate_loop_returns schema treatment properties :
  Dict.lookup "properties" schema = Some (VDict properties) ->
  forall todo done,
  NoDup (Dict.keys (done ++ todo)) ->
  (forall k v, In (k, v) todo ->
     exists descriptor, Dict.lookup k properties = Some descriptor
       /\ forall ty ex current,
            datelike (detect k descriptor) = Some ty -> parse v = Raise ex ->
            exists v', repair current [k] v ty ex treatment = Ok v') ->
  exists record',
    validate_loop detect parse repair schema treatment (Dict.keys todo)
      (done ++ todo) = (Ok (), record').
Proof.
  intros Hp. induction todo as [|[k v] todo IH]; intros done Hnd Hall.
  - eexists. reflexivity.
  - assert (Hk : ~ In k (Dict.keys done)).
    { unfold Dict.keys in Hnd. rewrite map_app in Hnd. simpl in Hnd.
      apply NoDup_ListNoDup, List.NoDup_remove_2 in Hnd.
      intros H. apply Hnd, in_or_app. auto. }
    destruct (Hall k v (or_introl eq_refl)) as (descriptor & Hd & Hrep).
    destruct (validate_field_returns schema treatment properties descriptor
                k v done todo Hk Hp Hd Hrep) as (v' & Ev).
    change (Dict.keys ((k, v) :: todo)) with (k :: Dict.keys todo).
    cbn [validate_loop]. rewrite Ev.
    replace (done ++ (k, v') :: todo) with ((done ++ [(k, v')]) ++ todo)
      by now rewrite <- app_assoc.
    apply IH.
    + unfold Dict.keys in *. rewrite !map_app in *. simpl in *.
      now rewrite <- app_assoc.
    + intros k0 v0 H0. apply Hall. now right.
Qed.

End TimestampRepair.

(** C8.  For a record (a dictionary, so without repeated keys).  When
    every field has a descriptor in [schema["properties"]] and, for each
    date-like field whose value does not parse, the repair routine returns
    a value under the treatment, [_validate_timestamps_in_record] returns,
    and it has replaced the value of every date-like field: by the parsed
    value if parsing succeeded, and otherwise by the value the repair
    routine returned for the record as it stood, the field path, the raw
    value, the detected type, the parse error and the treatment; a field
    that is not date-like is unchanged.  Whenever the call returns, the
    fields are as just said.  When some field of the record has no
    descriptor in [schema["properties"]] the call raises, and when that
    field is the first one it raises [KeyError] for it with the record
    untouched. *)
Theorem validate_timestamps_in_record_spec
    (detect : string -> pyval -> option string)
    (parse : pyval -> pyresult pyval)
    (repair : pydict -> list string -> pyval -> string -> exn ->
              Sink.DatetimeErrorTreatmentEnum -> pyresult pyval)
    (self : Sink.Sink) (record schema : pydict)
    (treatment : Sink.DatetimeErrorTreatmentEnum) :
  NoDup (Dict.keys record) ->
  let out := Sink._validate_timestamps_in_record detect parse repair
               self record schema treatment in
  (forall properties,
     Dict.lookup "properties" schema = Some (VDict properties) ->
     (forall k v, In (k, v) record ->
        exists descriptor, Dict.lookup k properties = Some descriptor
          /\ forall ty ex current,
               Sink.datelike (detect k descriptor) = Some ty ->
               parse v = Raise ex ->
               exists v', repair current [k] v ty ex treatment = Ok v') ->
     fst out = Ok ()
     /\ forall i k v, record !! i = Some (k, v) ->
          exists v', snd out !! i = Some (k, v')
            /\ Sink.field_result detect parse repair schema treatment
                 (take i (snd out) ++ drop i record) k v v')
  /\ (fst out = Ok () ->
      forall i k v, record !! i = Some (k, v) ->
        exists v', snd out !! i = Some (k, v')
          /\ Sink.field_result detect parse repair schema treatment
               (take i (snd out) ++ drop i record) k v v')
  /\ (forall k, In k (Dict.keys record) ->
        (forall properties,
           Dict.lookup "properties" schema = Some (VDict properties) ->
           Dict.lookup k properties = None) ->
        raises (fst out))
  /\ (forall k v rest properties,
        record = (k, v) :: rest ->
        Dict.lookup "properties" schema = Some (VDict properties) ->
        Dict.lookup k properties = None ->
        out = (Raise (KeyError k), record)).
Proof.
  intros Hnd out. subst out. unfold Sink._validate_timestamps_in_record.
  assert (Hfields :
    fst (Sink.validate_loop detect parse repair schema treatment
           (Dict.keys record) record) = Ok () ->
    forall i k v, record !! i = Some (k, v) ->
      exists v',
        snd (Sink.validate_loop detect parse repair schema treatment
               (Dict.keys record) record) !! i = Some (k, v')
        /\ Sink.field_result detect parse repair schema treatment
             (take i (snd (Sink.validate_loop detect parse repair schema
                             treatment (Dict.keys record) record))
              ++ drop i record) k v v').
  { intros Hok i k v Hi.
    destruct (Sink.validate_loop _ _ _ _ _ _ _) as [r record'] eqn:E.
    simpl in Hok. subst r.
    destruct (validate_loop_ok detect parse repair schema treatment
                record [] record' Hnd E) as (todo' & -> & Hall).
    exact (Hall i k v Hi). }
  split; [|split; [exact Hfields|split]].
  - intros properties Hp Hall.
    destruct (validate_loop_returns detect parse repair schema treatment
                properties Hp record [] Hnd Hall) as (record' & E).
    cbn [app] in E.
    assert (Hok : fst (Sink.validate_loop detect parse repair schema treatment
                         (Dict.keys record) record) = Ok ())
      by now rewrite E.
    split; [exact Hok|exact (Hfields Hok)].
  - intros k Hin Hmiss.
    now apply validate_loop_missing with (k := k).
  - intros k v rest properties -> Hp Hk. simpl.
    unfold Sink.validate_field, Dict.getitem. rewrite Hp. bind_step.
    unfold Sink.subscript, Dict.getitem. rewrite Hk. reflexivity.
Qed.

(** The theorem at a record with one field that parses and one that is
    repaired: the call returns and both values are replaced. *)
Lemma validate_timestamps_in_record_spec_witness :
  let out := Sink._validate_timestamps_in_record
               Samples.detect Samples.parse Samples.repair
               Samples.a_sink Samples.date_record Samples.date_schema
               Sink.NULL in
  fst out = Ok ()
  /\ forall i k v, Samples.date_record !! i = Some (k, v) ->
       exists v', snd out !! i = Some (k, v')
         /\ Sink.field_result Samples.detect Samples.parse Samples.repair
              Samples.date_schema Sink.NULL
              (take i (snd out) ++ drop i Samples.date_record) k v v'.
Proof.
  refine (proj1 (validate_timestamps_in_record_spec
                   Samples.detect Samples.parse Samples.repair
                   Samples.a_sink Samples.date_record Samples.date_schema
                   Sink.NULL _) Samples.date_properties _ _).
  - apply (bool_decide_unpack _). vm_compute. exact I.
  - reflexivity.
  - intros k v [[= <- <-]|[[= <- <-]|[[= <- <-]|[]]]];
      eexists; (split; [reflexivity|]); intros ty ex current _ _;
      eexists; reflexivity.
Defined.

Example validate_timestamps_null :
  Sink._validate_timestamps_in_record Samples.detect Samples.parse
    Samples.repair Samples.a_sink Samples.date_record Samples.date_schema
    Sink.NULL
  = (Ok (),
     [("id", VInt 7);
      ("created", VDatetime (mkDatetime 2021 3 7 0 0 0 0));
      ("updated", VNone)]).
Proof. vm_compute. reflexivity. Qed.

Example validate_timestamps_error :
  Sink._validate_timestamps_in_record Samples.detect Samples.parse
    Samples.repair Samples.a_sink Samples.date_record Samples.date_schema
    Sink.ERROR
  = (Raise (ValueError "Could not parse value"),
     [("id", VInt 7);
      ("created", VDatetime (mkDatetime 2021 3 7 0 0 0 0));
      ("updated", VStr "soon")]).
Proof. vm_compute. reflexivity. Qed.

Example validate_timestamps_unknown_field :
  Sink._validate_timestamps_in_record Samples.detect Samples.parse
    Samples.repair Samples.a_sink
    [("id", VInt 7); ("colour", VStr "red")] Samples.date_schema Sink.NULL
  = (Raise (KeyError "colour"), [("id", VInt 7); ("colour", VStr "red")]).
Proof. vm_compute. reflexivity. Qed.

(** ** The tap: construction and connection *)

(** C2.  When no class of the instance binds [_conn] ([TapBase] declares it
    by annotation only), [__init__] raises [AttributeError] for [_conn]
    whatever its arguments are, the connection class included: the
    constructor never returns an instance and never reaches the call of
    the connection class. *)
Theorem init_raises_attribute_error (class_conn : option Tap.pyref)
    (plugin_name version : string) (capabilities accepted_options : list string)
    (option_set_requirements : list (list string))
    (connection_class : Tap.conn_class) (config : pydict)
    (state : option pydict) (h : Tap.heap) :
  class_conn = None ->
  Tap.__init__ class_conn plugin_name version capabilities accepted_options
    option_set_requirements connection_class config state h
  = Raise (AttributeError "_conn").
Proof. intros ->. reflexivity. Qed.

Lemma init_raises_attribute_error_witness :
  Tap.__init__ None "sample-tap" "0.1" ["sync"] ["host"; "port"] []
    Samples.a_conn_class [("host", VStr "x")] None []
  = Raise (AttributeError "_conn").
Proof.
  apply (init_raises_attribute_error None "sample-tap" "0.1" ["sync"]
           ["host"; "port"] [] Samples.a_conn_class [("host", VStr "x")]
           None []).
  reflexivity.
Defined.

(** C5, on the object as [__init__] leaves it when it asks for the
    connection: [get_connection()] raises [AttributeError] and constructs
    nothing. *)
Theorem get_connection_before_assignment :
  Tap.get_connection None
    (Samples.a_tap ["host"; "port"] [] [("host", VStr "x")]) []
  = Raise (AttributeError "_conn").
Proof. reflexivity. Qed.

(** A true [_conn] is returned as it is. *)
Lemma get_connection_existing (class_conn : option Tap.pyref)
    (self : Tap.TapBase) (h : Tap.heap) (c : Tap.pyref) :
  Tap.attr_conn class_conn self = Ok c ->
  Tap.ref_bool c h = true ->
  Tap.get_connection class_conn self h = Ok (c, self, h).
Proof.
  intros Hc Hb. unfold Tap.get_connection. rewrite Hc. bind_step.
  rewrite Hb. cbn [negb]. rewrite Hc. reflexivity.
Qed.

(** Once [_conn] has a value, [get_connection()] behaves as its docstring
    says: it creates a connection when the value is false, and the second
    call returns the reference the first one returned, leaving the object
    store as it is. *)
Lemma get_connection_reuses_assigned (class_conn : option Tap.pyref)
    (self : Tap.TapBase) (h : Tap.heap) (c : Tap.pyref)
    (cls : Tap.conn_class) (config : pydict) :
  Tap.attr_conn class_conn self = Ok c ->
  Tap._conn_class self = Some cls ->
  Tap._config self = Some config ->
  Tap.cc_init cls config = None ->
  Tap.cc_truthy cls = true ->
  exists c1 self1 h1,
    Tap.get_connection class_conn self h = Ok (c1, self1, h1)
    /\ Tap.get_connection class_conn self1 h1 = Ok (c1, self1, h1)
    /\ (if Tap.ref_bool c h then c1 = c /\ self1 = self /\ h1 = h
        else c1 = Tap.RObj (length h)
             /\ h1 = h ++ [{| Tap.inst_class := cls;
                              Tap.inst_config := config |}]).
Proof.
  intros Hc Hcls Hcfg Hinit Htruthy.
  destruct (Tap.ref_bool c h) eqn:Eb.
  - exists c, self, h.
    rewrite (get_connection_existing class_conn self h c Hc Eb). auto.
  - set (h1 := h ++ [{| Tap.inst_class := cls; Tap.inst_config := config |}]).
    exists (Tap.RObj (length h)), (Tap.set_conn (Tap.RObj (length h)) self), h1.
    split; [|split; [|auto]].
    + unfold Tap.get_connection. rewrite Hc. bind_step. rewrite Eb.
      cbn [negb]. rewrite Hcls, Hcfg. unfold Tap.attr, Tap.instantiate.
      rewrite Hinit. reflexivity.
    + apply get_connection_existing; [reflexivity|].
      unfold h1. cbn [Tap.ref_bool].
      rewrite list_lookup_middle by reflexivity. exact Htruthy.
Qed.

(** ** The tap: configuration validation *)

Section ValidateConfig.

Import Tap.

Lemma str_in_In x l : str_in x l = true <-> In x l.
Proof.
  unfold str_in. rewrite existsb_exists. split.
  - intros (y & Hy & E). apply String.eqb_eq in E. now subst.
  - intros H. exists x. split; [exact H|apply String.eqb_refl].
Qed.

Lemma str_in_not_In x l : negb (str_in x l) = true <-> ~ In x l.
Proof.
  rewrite <- str_in_In. destruct (str_in x l); simpl; split; congruence.
Qed.

Lemma append_cons (c : ascii) (a b : string) :
  String c a +:+ b = String c (a +:+ b).
Proof. reflexivity. Qed.

Lemma append_length (a b : string) :
  String.length (a +:+ b) = (String.length a + String.length b)%nat.
Proof.
  induction a as [|c a IH]; [reflexivity|].
  rewrite append_cons. simpl. now rewrite IH.
Qed.

Lemma append_inj_r (s : string) : forall a b : string,
  a +:+ s = b +:+ s -> a = b.
Proof.
  induction a as [|c a IH]; intros [|c' b] H.
  - reflexivity.
  - apply (f_equal String.length) in H.
    rewrite !append_length in H. simpl in H. lia.
  - apply (f_equal String.length) in H.
    rewrite !append_length in H. simpl in H. lia.
  - rewrite !append_cons in H. injection H as -> H. f_equal. now apply IH.
Qed.

Lemma unexpected_option_inj k k' :
  unexpected_option k = unexpected_option k' -> k = k'.
Proof.
  unfold unexpected_option. intros H.
  apply append_inj_r with (s := ".").
  cbv [String.append] in H. now simplify_eq.
Qed.

Lemma warnings_loop_spec self accepted :
  _accepted_options self = Some accepted ->
  forall keys warnings,
    warnings_loop self keys warnings
    = Ok (warnings ++
          map unexpected_option
            (List.filter (fun k => negb (str_in k accepted)) keys)).
Proof.
  intros Ha. induction keys as [|k keys IH]; intros warnings; simpl.
  - now rewrite app_nil_r.
  - rewrite Ha. bind_step.
    destruct (str_in k accepted) eqn:E; simpl; rewrite ?E; simpl.
    + apply IH.
    + rewrite IH, <- app_assoc. reflexivity.
Qed.

(** A required set is satisfied when each of its options is a key. *)
Lemma required_loop_spec self config :
  _config self = Some config ->
  forall sets matched_any missing,
    required_loop self sets matched_any missing
    = Ok ((matched_any ||
           existsb (forallb (fun x => str_in x (Dict.keys config))) sets)%bool,
          missing ++
          map (List.filter (fun x => negb (str_in x (Dict.keys config))))
            (List.filter
               (fun s => negb (forallb (fun x => str_in x (Dict.keys config)) s))
               sets)).
Proof.
  intros Hc. induction sets as [|s sets IH]; intros matched_any missing; simpl.
  - now rewrite app_nil_r, orb_false_r.
  - rewrite Hc. bind_step.
    destruct (forallb (fun x => str_in x (Dict.keys config)) s) eqn:E;
      simpl; rewrite ?E; simpl.
    + rewrite IH. now rewrite orb_true_r.
    + rewrite IH, <- app_assoc. reflexivity.
Qed.

End ValidateConfig.

(** C4.  On a tap whose configuration, accepted options and option-set
    requirements are assigned, [validate_config()] returns a pair
    [(warnings, errors)].  The warnings are, in key order, the text
    "Unexpected config option found: k." for the configuration keys [k]
    that are not accepted options, each such text occurring once.  When
    the requirements are not empty and every set lacks some option, the
    errors are the single message that lists, set by set, the options of
    the set that are not configuration keys; when the requirements are
    empty or some set has all its options among the keys, there is no
    error. *)
Theorem validate_config_spec (self : Tap.TapBase) (config : pydict)
    (accepted : list string) (sets : list (list string)) :
  Tap._config self = Some config ->
  Tap._accepted_options self = Some accepted ->
  Tap._option_set_requirements self = Some sets ->
  List.NoDup (Dict.keys config) ->
  exists warnings errors,
    Tap.validate_config self = Ok (warnings, errors)
    /\ warnings
       = map Tap.unexpected_option
           (List.filter (fun k => negb (Tap.str_in k accepted))
              (Dict.keys config))
    /\ (forall w, In w warnings <->
          exists k, In k (Dict.keys config) /\ ~ In k accepted
                    /\ w = Tap.unexpected_option k)
    /\ (forall k, In k (Dict.keys config) -> ~ In k accepted ->
          count_occ string_dec warnings (Tap.unexpected_option k) = 1%nat)
    /\ (sets <> [] ->
        (forall s, In s sets ->
           exists x, In x s /\ ~ In x (Dict.keys config)) ->
        errors
        = [Tap.missing_options
             (map (List.filter
                     (fun x => negb (Tap.str_in x (Dict.keys config))))
                  sets)])
    /\ (sets = [] \/
        (exists s, In s sets /\ forall x, In x s -> In x (Dict.keys config)) ->
        errors = []).
Proof.
  intros Hc Ha Hs Hnd.
  set (sat := forallb (fun x => Tap.str_in x (Dict.keys config))).
  set (unexpected :=
         List.filter (fun k => negb (Tap.str_in k accepted)) (Dict.keys config)).
  exists (map Tap.unexpected_option unexpected).
  exists (match sets with
          | [] => []
          | _ =>
              if negb (existsb sat sets)
              then [Tap.missing_options
                      (map (List.filter
                              (fun x => negb (Tap.str_in x (Dict.keys config))))
                           (List.filter (fun s => negb (sat s)) sets))]
              else []
          end).
  split; [|split; [reflexivity|split; [|split; [|split]]]].
  - unfold Tap.validate_config, Tap.attr. rewrite Hc, Hs. bind_step.
    rewrite (warnings_loop_spec self accepted Ha). simpl.
    destruct sets as [|s sets']; [reflexivity|].
    rewrite (required_loop_spec self config Hc). simpl.
    fold sat. destruct (sat s || existsb sat sets')%bool; reflexivity.
  - intros w. rewrite in_map_iff. split.
    + intros (k & <- & Hk). apply filter_In in Hk as [Hk Hn].
      apply str_in_not_In in Hn. eauto.
    + intros (k & Hk & Hn & ->). exists k. split; [reflexivity|].
      apply filter_In. split; [exact Hk|]. now apply str_in_not_In.
  - intros k Hk Hn.
    rewrite <- (count_occ_map Tap.unexpected_option string_dec string_dec
                  unexpected_option_inj).
    apply NoDup_count_occ'.
    + now apply List.NoDup_filter.
    + apply filter_In. split; [exact Hk|]. now apply str_in_not_In.
  - intros Hne Hall. destruct sets as [|s sets']; [congruence|].
    assert (Hnone : forall l, (forall s0, In s0 l ->
                exists x, In x s0 /\ ~ In x (Dict.keys config)) ->
              existsb sat l = false
              /\ List.filter (fun s0 => negb (sat s0)) l = l).
    { induction l as [|s0 l IH]; intros Hl; [auto|].
      assert (Es : sat s0 = false).
      { destruct (Hl s0 (or_introl eq_refl)) as (x & Hx & Hnx).
        destruct (sat s0) eqn:E; [|reflexivity]. exfalso. apply Hnx.
        unfold sat in E. rewrite forallb_forall in E.
        apply str_in_In. auto. }
      destruct IH as [IH1 IH2]; [intros; apply Hl; now right|].
      simpl. rewrite Es, IH1, IH2. auto. }
    destruct (Hnone (s :: sets') Hall) as [E1 E2].
    rewrite E1, E2. reflexivity.
  - intros [->|(s & Hin & Hsat)]; [reflexivity|].
    destruct sets as [|s0 sets']; [reflexivity|].
    assert (E : existsb sat (s0 :: sets') = true).
    { apply existsb_exists. exists s. split; [exact Hin|].
      unfold sat. apply forallb_forall. intros x Hx.
      apply str_in_In. auto. }
    rewrite E. reflexivity.
Qed.

Lemma validate_config_spec_witness :
  let self := Samples.a_tap ["user"; "password"; "token"]
                [["user"; "password"]; ["token"]]
                [("user", VStr "a"); ("extra", VInt 1)] in
  let config := [("user", VStr "a"); ("extra", VInt 1)] in
  let accepted := ["user"; "password"; "token"] in
  let sets := [["user"; "password"]; ["token"]] in
  exists warnings errors,
    Tap.validate_config self = Ok (warnings, errors)
    /\ warnings
       = map Tap.unexpected_option
           (List.filter (fun k => negb (Tap.str_in k accepted))
              (Dict.keys config))
    /\ (forall w, In w warnings <->
          exists k, In k (Dict.keys config) /\ ~ In k accepted
                    /\ w = Tap.unexpected_option k)
    /\ (forall k, In k (Dict.keys config) -> ~ In k accepted ->
          count_occ string_dec warnings (Tap.unexpected_option k) = 1%nat)
    /\ (sets <> [] ->
        (forall s, In s sets ->
           exists x, In x s /\ ~ In x (Dict.keys config)) ->
        errors
        = [Tap.missing_options
             (map (List.filter
                     (fun x => negb (Tap.str_in x (Dict.keys config))))
                  sets)])
    /\ (sets = [] \/
        (exists s, In s sets /\ forall x, In x s -> In x (Dict.keys config)) ->
        errors = []).
Proof.
  apply (validate_config_spec
           (Samples.a_tap ["user"; "password"; "token"]
              [["user"; "password"]; ["token"]]
              [("user", VStr "a"); ("extra", VInt 1)])
           [("user", VStr "a"); ("extra", VInt 1)]
           ["user"; "password"; "token"]
           [["user"; "password"]; ["token"]]);
    try reflexivity.
  apply NoDup_ListNoDup, (bool_decide_unpack _). vm_compute. exact I.
Defined.

Example validate_config_missing_sets :
  Tap.validate_config
    (Samples.a_tap ["user"; "password"; "token"]
       [["user"; "password"]; ["token"]]
       [("user", VStr "a"); ("extra", VInt 1)])
  = Ok (["Unexpected config option found: extra."],
        ["One or more required config options are missing. Please complete one or more of the following sets: [['password'], ['token']]"]).
Proof. vm_compute. reflexivity. Qed.

Example validate_config_satisfied :
  Tap.validate_config
    (Samples.a_tap ["user"; "password"; "token"]
       [["user"; "password"]; ["token"]]
       [("token", VStr "t")])
  = Ok ([], []).
Proof. vm_compute. reflexivity. Qed.

Example validate_config_no_requirements :
  Tap.validate_config
    (Samples.a_tap ["host"; "port"] [] [("host", VStr "x"); ("extra", VInt 1)])
  = Ok (["Unexpected config option found: extra."], []).
Proof. vm_compute. reflexivity. Qed.

(** ** The sample connection *)

Section QueryFacts.

Import SampleConnection.

Variable DB : Type.
Variable connect : DB -> pyresult () * DB.
Variable execute : string -> pyval -> DB -> pyresult (Z * list row) * DB.

Lemma executed_app tr1 tr2 :
  executed (tr1 ++ tr2) = executed tr1 ++ executed tr2.
Proof.
  induction tr1 as [|e tr1 IH]; [reflexivity|].
  destruct e; simpl; congruence.
Qed.

Lemma last_filter_cons {A B} (p : A -> bool) (f : A -> B) (o : A)
    (outs : list A) (d : B) :
  from_option f d (last (List.filter p (o :: outs)))
  = from_option f (if p o then f o else d) (last (List.filter p outs)).
Proof.
  simpl. destruct (p o); [|reflexivity].
  rewrite last_cons. destruct (last (List.filter p outs)); reflexivity.
Qed.

(** The loop of [query]: the statements are executed in order, up to the
    end or to the first exception; when the loop ends normally its result
    is the rows of the last statement with a positive row count. *)
Lemma run_queries_spec : forall queries params max_records result w,
  let out := run_queries DB execute queries params max_records result w in
  let outs := outcomes DB execute queries params (db w) in
  exists mid,
    trace (snd out) = trace w ++ mid
    /\ forallb statement_event mid = true
    /\ (exists n, (queries <> [] -> (0 < n)%nat)
                  /\ executed mid = take n queries)
    /\ (forall rows, fst out = Ok rows ->
          executed mid = queries
          /\ length outs = length queries
          /\ rows = from_option snd result
                      (last (List.filter (fun o => 0 <? fst o) outs)))
    /\ (length outs = length queries ->
        Forall (fun o => max_records = 0 \/ fst o <= max_records) outs ->
        exists rows, fst out = Ok rows).
Proof.
  induction queries as [|sql queries IH]; intros params max_records result w.
  - exists []. cbn. rewrite app_nil_r.
    split; [reflexivity|]. split; [reflexivity|]. split; [|split].
    + exists 0%nat. split; [congruence|reflexivity].
    + intros rows [= <-]. auto.
    + intros _ _. eauto.
  - cbn zeta. cbn [run_queries outcomes emit db trace].
    destruct (execute sql params (db w)) as [[[rowcount rows]|e] d] eqn:Ex.
    2:{ exists [EvExecute sql]. cbn.
        split; [reflexivity|]. split; [reflexivity|]. split; [|split].
        - exists 1%nat. split; [lia|reflexivity].
        - discriminate.
        - discriminate. }
    destruct (negb (max_records =? 0) && (rowcount >? max_records))%bool
      eqn:Eg.
    { exists [EvExecute sql]. cbn. split; [reflexivity|].
      split; [reflexivity|]. split; [|split].
      - exists 1%nat. split; [lia|reflexivity].
      - discriminate.
      - intros _ Hall. exfalso. apply Forall_cons in Hall as [Hg _].
        apply andb_true_iff in Eg as [E0 E1]. cbn in Hg.
        apply negb_true_iff, Z.eqb_neq in E0.
        rewrite Z.gtb_ltb, Z.ltb_lt in E1. lia. }
    destruct (rowcount >? 0) eqn:Epos.
    + specialize (IH params max_records rows
                    (emit DB EvFetchAll
                       {| db := d; trace := trace w ++ [EvExecute sql] |})).
      cbn zeta in IH. cbn [emit db trace] in IH.
      destruct IH as (mid & Htr & Hev & (n & Hn & Hex) & Hret & Hok).
      exists (EvExecute sql :: EvFetchAll :: mid).
      split; [rewrite Htr, <- !app_assoc; reflexivity|].
      split; [exact Hev|]. split; [|split].
      * exists (S n). split; [lia|]. cbn. now rewrite Hex.
      * intros rows' Hr. destruct (Hret rows' Hr) as (H1 & H2 & H3).
        split; [cbn; now rewrite H1|]. split; [cbn; now rewrite H2|].
        rewrite H3.
        rewrite (last_filter_cons (fun o => 0 <? fst o) snd (rowcount, rows)).
        cbn [fst snd]. rewrite Z.gtb_ltb in Epos. rewrite Epos. reflexivity.
      * intros Hlen Hall. apply Hok.
        -- cbn in Hlen. lia.
        -- now apply Forall_cons in Hall as [_ Hall].
    + specialize (IH params max_records result
                    {| db := d; trace := trace w ++ [EvExecute sql] |}).
      cbn zeta in IH. cbn [emit db trace] in IH.
      destruct IH as (mid & Htr & Hev & (n & Hn & Hex) & Hret & Hok).
      exists (EvExecute sql :: mid).
      split; [rewrite Htr, <- !app_assoc; reflexivity|].
      split; [exact Hev|]. split; [|split].
      * exists (S n). split; [lia|]. cbn. now rewrite Hex.
      * intros rows' Hr. destruct (Hret rows' Hr) as (H1 & H2 & H3).
        split; [cbn; now rewrite H1|]. split; [cbn; now rewrite H2|].
        rewrite H3.
        rewrite (last_filter_cons (fun o => 0 <? fst o) snd (rowcount, rows)).
        cbn [fst snd]. rewrite Z.gtb_ltb in Epos. rewrite Epos. reflexivity.
      * intros Hlen Hall. apply Hok.
        -- cbn in Hlen. lia.
        -- now apply Forall_cons in Hall as [_ Hall].
Qed.

End QueryFacts.

(** C6.  A call of [query] with a list of statements.  When the connection
    cannot be acquired the call raises what the acquisition raised and
    nothing is executed.  Otherwise everything the call does lies between
    one connection and cursor acquisition and their release; the
    statements executed are, in order, [START TRANSACTION] and then the
    supplied statements, all of them when the call returns and a
    non-empty initial part of them when it raises; the value returned is
    the rows fetched for the last executed statement whose row count was
    positive ([START TRANSACTION] included), and the empty list when there
    is none; and the call does return when every statement executes and
    no row count is above a non-zero [max_records]. *)
Theorem query_list_spec (DB : Type) (connect : DB -> pyresult () * DB)
    (execute : string -> pyval -> DB
               -> pyresult (Z * list SampleConnection.row) * DB)
    (statements : list string) (params : pyval) (max_records : Z)
    (w : SampleConnection.world DB) :
  let out := SampleConnection.query DB connect execute
               (SampleConnection.QueryList statements) params max_records w in
  let queries := "START TRANSACTION" :: statements in
  match connect (SampleConnection.db w) with
  | (Raise e, d) =>
      out = (Raise e, SampleConnection.mkWorld d (SampleConnection.trace w))
  | (Ok _, d) =>
      let outs := SampleConnection.outcomes DB execute queries params d in
      exists mid,
        SampleConnection.trace (snd out)
        = SampleConnection.trace w
          ++ [SampleConnection.EvConnect; SampleConnection.EvCursor]
          ++ mid
          ++ [SampleConnection.EvCursorClose;
              SampleConnection.EvConnectionClose]
        /\ forallb SampleConnection.statement_event mid = true
        /\ (exists n, (0 < n)%nat
              /\ SampleConnection.executed mid = take n queries)
        /\ (forall rows, fst out = Ok rows ->
              SampleConnection.executed mid = queries
              /\ rows = SampleConnection.last_positive outs)
        /\ (length outs = length queries ->
            Forall (fun o => max_records = 0 \/ fst o <= max_records) outs ->
            exists rows, fst out = Ok rows)
  end.
Proof.
  intros out queries. subst out queries. unfold SampleConnection.query.
  destruct (connect (SampleConnection.db w)) as [[[]|e] d]; [|reflexivity].
  pose proof (run_queries_spec DB execute ("START TRANSACTION" :: statements)
                params max_records []
                (SampleConnection.emit DB SampleConnection.EvCursor
                   (SampleConnection.emit DB SampleConnection.EvConnect
                      {| SampleConnection.db := d;
                         SampleConnection.trace := SampleConnection.trace w |})))
    as H.
  cbn zeta in H.
  destruct (SampleConnection.run_queries DB execute _ params max_records [] _)
    as [r w2].
  cbn [SampleConnection.emit SampleConnection.db SampleConnection.trace
       fst snd] in *.
  destruct H as (mid & Htr & Hev & (n & Hn & Hex) & Hret & Hok).
  exists mid.
  split; [|split; [exact Hev|split; [|split]]].
  - rewrite Htr, <- !app_assoc. reflexivity.
  - exists n. split; [apply Hn; discriminate|exact Hex].
  - intros rows Hr. destruct (Hret rows Hr) as (H1 & _ & H3).
    split; [exact H1|]. rewrite H3. reflexivity.
  - exact Hok.
Qed.

Example query_list_run :
  SampleConnection.query unit Samples.wh_connect Samples.wh_execute
    (SampleConnection.QueryList ["SELECT N FROM T"; "DELETE FROM T"])
    VNone 0 Samples.wh_start
  = (Ok Samples.two_rows,
     SampleConnection.mkWorld tt
       [SampleConnection.EvConnect; SampleConnection.EvCursor;
        SampleConnection.EvExecute "START TRANSACTION";
        SampleConnection.EvFetchAll;
        SampleConnection.EvExecute "SELECT N FROM T";
        SampleConnection.EvFetchAll;
        SampleConnection.EvExecute "DELETE FROM T";
        SampleConnection.EvCursorClose;
        SampleConnection.EvConnectionClose]).
Proof. vm_compute. reflexivity. Qed.

Example query_list_only_transaction :
  fst (SampleConnection.query unit Samples.wh_connect Samples.wh_execute
         (SampleConnection.QueryList ["DELETE FROM T"])
         VNone 0 Samples.wh_start)
  = Ok [Samples.status_row].
Proof. vm_compute. reflexivity. Qed.

(** The name [TooManyRecordsException] is bound nowhere in the module, so
    the [raise] statement of the guard ends in [NameError], whatever the
    limit. *)
Lemma raise_too_many_records_name_error (max_records : Z) :
  SampleConnection.raise_too_many_records max_records
  = NameError "TooManyRecordsException".
Proof. reflexivity. Qed.

(** C7, evaluated: with [max_records = 1] a statement reporting two rows
    stops the call before any fetch, but with [NameError], not with an
    exception that names the limit; with [max_records = 0] the same
    statement returns its two rows. *)
Theorem query_guard_run :
  SampleConnection.query unit Samples.wh_connect Samples.wh_execute
    (SampleConnection.QueryOne "SELECT N FROM T") VNone 1 Samples.wh_start
  = (Raise (NameError "TooManyRecordsException"),
     SampleConnection.mkWorld tt
       [SampleConnection.EvConnect; SampleConnection.EvCursor;
        SampleConnection.EvExecute "SELECT N FROM T";
        SampleConnection.EvCursorClose;
        SampleConnection.EvConnectionClose])
  /\ SampleConnection.query unit Samples.wh_connect Samples.wh_execute
       (SampleConnection.QueryOne "SELECT N FROM T") VNone 0 Samples.wh_start
     = (Ok Samples.two_rows,
        SampleConnection.mkWorld tt
          [SampleConnection.EvConnect; SampleConnection.EvCursor;
           SampleConnection.EvExecute "SELECT N FROM T";
           SampleConnection.EvFetchAll;
           SampleConnection.EvCursorClose;
           SampleConnection.EvConnectionClose]).
Proof. split; vm_compute; reflexivity. Qed.

(** The guard on a single statement, for any warehouse: a row count above
    a non-zero limit stops the call after the statement has been executed
    and before any fetch; with the limit 0 a statement with rows has them
    fetched and returned. *)
Lemma query_guard_single (DB : Type) (connect : DB -> pyresult () * DB)
    (execute : string -> pyval -> DB
               -> pyresult (Z * list SampleConnection.row) * DB)
    (sql : string) (params : pyval) (max_records rowcount : Z)
    (rows : list SampleConnection.row) (w : SampleConnection.world DB)
    (d d' : DB) :
  connect (SampleConnection.db w) = (Ok (), d) ->
  execute sql params d = (Ok (rowcount, rows), d') ->
  (max_records <> 0 -> rowcount > max_records ->
   SampleConnection.query DB connect execute (SampleConnection.QueryOne sql)
     params max_records w
   = (Raise (NameError "TooManyRecordsException"),
      SampleConnection.mkWorld d'
        (((((SampleConnection.trace w ++ [SampleConnection.EvConnect])
            ++ [SampleConnection.EvCursor])
           ++ [SampleConnection.EvExecute sql])
          ++ [SampleConnection.EvCursorClose])
         ++ [SampleConnection.EvConnectionClose])))
  /\ (max_records = 0 -> rowcount > 0 ->
      SampleConnection.query DB connect execute (SampleConnection.QueryOne sql)
        params max_records w
      = (Ok rows,
         SampleConnection.mkWorld d'
           ((((((SampleConnection.trace w ++ [SampleConnection.EvConnect])
                ++ [SampleConnection.EvCursor])
               ++ [SampleConnection.EvExecute sql])
              ++ [SampleConnection.EvFetchAll])
             ++ [SampleConnection.EvCursorClose])
            ++ [SampleConnection.EvConnectionClose]))).
Proof.
  intros Hc He. unfold SampleConnection.query. rewrite Hc.
  cbn [SampleConnection.run_queries SampleConnection.emit
       SampleConnection.db SampleConnection.trace].
  rewrite He. split.
  - intros Hm Hr.
    apply Z.eqb_neq in Hm. apply Z.gt_lt, Z.ltb_lt in Hr.
    rewrite Z.gtb_ltb, Hm, Hr. reflexivity.
  - intros -> Hr. apply Z.gt_lt, Z.ltb_lt in Hr.
    cbn [Z.eqb negb andb]. rewrite Z.gtb_ltb, Hr. reflexivity.
Qed.

(** * Further properties *)

(** ** Assignment to dictionary keys *)

Section SetitemFacts.

Implicit Types (k : string) (v : pyval) (d : pydict).

Lemma contains_In k d : Dict.contains k d = true <-> In k (Dict.keys d).
Proof.
  unfold Dict.contains. destruct (Dict.lookup k d) eqn:E.
  - split; [intros _; eapply lookup_Some_keys, E|reflexivity].
  - split; [discriminate|]. intros H. now apply lookup_None_keys in E.
Qed.

Lemma contains_setitem_ne k k' v d :
  k <> k' -> Dict.contains k' (Dict.setitem k v d) = Dict.contains k' d.
Proof. intros H. unfold Dict.contains. now rewrite lookup_setitem_ne. Qed.

Lemma keys_setitem k v d :
  Dict.keys (Dict.setitem k v d)
  = Dict.keys d ++ (if Dict.contains k d then [] else [k]).
Proof.
  unfold Dict.contains.
  induction d as [|[k' v'] d IH]; simpl; [reflexivity|].
  destruct (String.eqb k k') eqn:E; simpl.
  - now rewrite app_nil_r.
  - now rewrite IH.
Qed.

Lemma in_keys_setitem_same k v d : In k (Dict.keys (Dict.setitem k v d)).
Proof. eapply lookup_Some_keys, lookup_setitem_eq. Qed.

Lemma in_keys_setitem_other k k' v d :
  In k (Dict.keys d) -> In k (Dict.keys (Dict.setitem k' v d)).
Proof. rewrite keys_setitem. intros H. apply in_or_app. now left. Qed.

Lemma setitem_setitem_same k v v' d :
  Dict.setitem k v (Dict.setitem k v' d) = Dict.setitem k v d.
Proof.
  induction d as [|[k0 v0] d IH]; simpl.
  - now rewrite String.eqb_refl.
  - destruct (String.eqb k k0) eqn:E; simpl; rewrite E; [reflexivity|].
    now rewrite IH.
Qed.

(** Two assignments to different keys commute as soon as one of the keys
    is already there (two new keys are appended in assignment order). *)
Lemma setitem_comm k1 k2 v1 v2 d :
  k1 <> k2 -> In k1 (Dict.keys d) ->
  Dict.setitem k1 v1 (Dict.setitem k2 v2 d)
  = Dict.setitem k2 v2 (Dict.setitem k1 v1 d).
Proof.
  intros Hne. induction d as [|[k0 v0] d IH]; simpl; [tauto|].
  intros Hin.
  destruct (String.eqb k1 k0) eqn:E1, (String.eqb k2 k0) eqn:E2; simpl;
    rewrite ?E1, ?E2; try reflexivity.
  - apply String.eqb_eq in E1, E2. congruence.
  - apply String.eqb_neq in E1.
    destruct Hin as [Hin|Hin]; [congruence|]. now rewrite IH.
Qed.

End SetitemFacts.

(** ** The sink: metadata stamping, continued *)

(** The record after stamping, written with the value of
    [_sdc_deleted_at] read from the record before the call. *)
Lemma add_metadata_unfold (now : datetime) (record message : pydict) :
  Sink._add_metadata_values_to_record now record message
  = Dict.setitem "_sdc_deleted_at" (Dict.get "_sdc_deleted_at" record)
      (Dict.setitem "_sdc_batched_at" (VStr (isoformat now))
         (Dict.setitem "_sdc_extracted_at"
            (Dict.get "time_extracted" message) record)).
Proof.
  unfold Sink._add_metadata_values_to_record. cbv zeta.
  now rewrite !get_setitem_ne by discriminate.
Qed.

(** X1.  Stamping a record that was stamped before gives the record that
    the second stamping alone gives: the fields of the earlier stamp are
    overwritten in place, no field is added twice, and [_sdc_deleted_at]
    keeps the value the record carried at the start. *)
Theorem add_metadata_last_stamp_wins (now1 now2 : datetime)
    (record message1 message2 : pydict) :
  Sink._add_metadata_values_to_record now2
    (Sink._add_metadata_values_to_record now1 record message1) message2
  = Sink._add_metadata_values_to_record now2 record message2.
Proof.
  rewrite (add_metadata_unfold now2 (Sink._add_metadata_values_to_record _ _ _)).
  rewrite !add_metadata_unfold.
  set (x := Dict.get "_sdc_deleted_at" record).
  set (e1 := Dict.get "time_extracted" message1).
  set (e2 := Dict.get "time_extracted" message2).
  set (b1 := VStr (isoformat now1)). set (b2 := VStr (isoformat now2)).
  replace (Dict.get "_sdc_deleted_at" (Dict.setitem "_sdc_deleted_at" x _))
    with x by (unfold Dict.get; now rewrite lookup_setitem_eq).
  rewrite (setitem_comm "_sdc_extracted_at" "_sdc_deleted_at")
    by (try discriminate;
        apply in_keys_setitem_other, in_keys_setitem_same).
  rewrite (setitem_comm "_sdc_extracted_at" "_sdc_batched_at")
    by (try discriminate; apply in_keys_setitem_same).
  rewrite setitem_setitem_same.
  rewrite (setitem_comm "_sdc_batched_at" "_sdc_deleted_at")
    by (try discriminate; apply in_keys_setitem_same).
  now rewrite !setitem_setitem_same.
Qed.

(** X2.  Stamping keeps the fields of the record in their order and adds
    at the end, in assignment order, those of the three metadata fields
    the record did not have; a record with distinct keys keeps distinct
    keys. *)
Theorem add_metadata_keys (now : datetime) (record message : pydict) :
  let record' := Sink._add_metadata_values_to_record now record message in
  Dict.keys record'
  = Dict.keys record
    ++ List.filter (fun k => negb (Dict.contains k record)) Sink.sdc_keys
  /\ (forall k, In k Sink.sdc_keys -> In k (Dict.keys record'))
  /\ (List.NoDup (Dict.keys record) -> List.NoDup (Dict.keys record')).
Proof.
  cbv zeta. rewrite add_metadata_unfold.
  assert (Hk : Dict.keys
            (Dict.setitem "_sdc_deleted_at" (Dict.get "_sdc_deleted_at" record)
               (Dict.setitem "_sdc_batched_at" (VStr (isoformat now))
                  (Dict.setitem "_sdc_extracted_at"
                     (Dict.get "time_extracted" message) record)))
          = Dict.keys record
            ++ List.filter (fun k => negb (Dict.contains k record))
                 Sink.sdc_keys).
  { rewrite !keys_setitem, !contains_setitem_ne by discriminate.
    unfold Sink.sdc_keys. simpl.
    destruct (Dict.contains "_sdc_extracted_at" record),
             (Dict.contains "_sdc_batched_at" record),
             (Dict.contains "_sdc_deleted_at" record);
      simpl; rewrite <- ?app_assoc; reflexivity. }
  split; [exact Hk|]. split.
  - intros k [<-|[<-|[<-|[]]]].
    + apply in_keys_setitem_other, in_keys_setitem_other, in_keys_setitem_same.
    + apply in_keys_setitem_other, in_keys_setitem_same.
    + apply in_keys_setitem_same.
  - intros Hnd. rewrite Hk. apply NoDup_ListNoDup, NoDup_app.
    split; [now apply NoDup_ListNoDup|]. split.
    + intros k Hin Hf. apply list_elem_of_In, filter_In in Hf as [_ Hf].
      apply list_elem_of_In, contains_In in Hin. rewrite Hin in Hf.
      discriminate.
    + apply NoDup_ListNoDup, List.NoDup_filter.
      apply NoDup_ListNoDup, (bool_decide_unpack _). vm_compute. exact I.
Qed.

(** ** The sink: timestamp repair, continued *)

Section TimestampLoop.

Import Sink.

Variable detect : string -> pyval -> option string.
Variable parse : pyval -> pyresult pyval.
Variable repair :
  pydict -> list string -> pyval -> string -> exn ->
  DatetimeErrorTreatmentEnum -> pyresult pyval.

Implicit Types (k : string) (v : pyval) (done todo record : pydict).

(** An iteration that does not raise either leaves the record alone or
    assigns to its own key. *)
Lemma validate_field_cases schema treatment k record record' :
  validate_field detect parse repair schema treatment k record = Ok record' ->
  record' = record \/ exists x, record' = Dict.setitem k x record.
Proof.
  unfold validate_field.
  destruct (Dict.getitem "properties" schema) as [properties|];
    [|bind_step; discriminate].
  bind_step.
  destruct (subscript properties k) as [descriptor|];
    [|bind_step; discriminate].
  destruct (datelike (detect k descriptor)) as [ty|].
  - destruct (parse (Dict.get k record)) as [parsed|ex].
    + intros [= <-]. eauto.
    + destruct (repair _ _ _ _ _ _) as [fixed|e]; [|discriminate].
      intros [= <-]. eauto.
  - intros [= <-]. auto.
Qed.

Lemma validate_field_keys schema treatment k record record' :
  In k (Dict.keys record) ->
  validate_field detect parse repair schema treatment k record = Ok record' ->
  Dict.keys record' = Dict.keys record.
Proof.
  intros Hin H. apply validate_field_cases in H as [->|[x ->]];
    [reflexivity|]. now apply keys_setitem_present.
Qed.

Lemma validate_loop_keys schema treatment : forall keys record,
  (forall k, In k keys -> In k (Dict.keys record)) ->
  Dict.keys (snd (validate_loop detect parse repair schema treatment
                    keys record))
  = Dict.keys record.
Proof.
  induction keys as [|k keys IH]; intros record Hin; [reflexivity|].
  simpl.
  destruct (validate_field _ _ _ _ _ _ _) as [r1|e] eqn:E; [|reflexivity].
  apply validate_field_keys in E; [|apply Hin; now left].
  rewrite IH, E; [reflexivity|].
  intros k' Hk'. rewrite E. apply Hin. now right.
Qed.

(** A field that is not date-like is stepped over. *)
Lemma validate_field_plain schema treatment properties descriptor k record :
  Dict.lookup "properties" schema = Some (VDict properties) ->
  Dict.lookup k properties = Some descriptor ->
  datelike (detect k descriptor) = None ->
  validate_field detect parse repair schema treatment k record = Ok record.
Proof.
  intros Hp Hd Hn. unfold validate_field, Dict.getitem. rewrite Hp.
  bind_step. unfold subscript, Dict.getitem. rewrite Hd, Hn. reflexivity.
Qed.

Lemma validate_loop_plain schema treatment properties : forall keys record,
  Dict.lookup "properties" schema = Some (VDict properties) ->
  (forall k, In k keys ->
     exists descriptor, Dict.lookup k properties = Some descriptor
       /\ datelike (detect k descriptor) = None) ->
  validate_loop detect parse repair schema treatment keys record
  = (Ok (), record).
Proof.
  induction keys as [|k keys IH]; intros record Hp Hall; [reflexivity|].
  simpl. destruct (Hall k (or_introl eq_refl)) as (descriptor & Hd & Hn).
  rewrite (validate_field_plain _ _ _ _ _ _ Hp Hd Hn).
  apply IH; [exact Hp|]. intros k' Hk'. apply Hall. now right.
Qed.

(** The iteration for a field whose value parses, or that is not
    date-like. *)
Lemma validate_field_normalized schema treatment properties descriptor k v
    done todo :
  ~ In k (Dict.keys done) ->
  Dict.lookup "properties" schema = Some (VDict properties) ->
  Dict.lookup k properties = Some descriptor ->
  (forall ty, datelike (detect k descriptor) = Some ty ->
     exists parsed, parse v = Ok parsed) ->
  validate_field detect parse repair schema treatment k
    (done ++ (k, v) :: todo)
  = Ok (done ++ normalized detect parse properties (k, v) :: todo).
Proof.
  intros Hk Hp Hd Hparse. unfold validate_field, Dict.getitem, Dict.get.
  rewrite Hp. bind_step. unfold subscript, Dict.getitem, normalized.
  rewrite Hd, (lookup_app_first k v done todo Hk).
  destruct (datelike (detect k descriptor)) as [ty|]; [|reflexivity].
  destruct (Hparse ty eq_refl) as (parsed & ->).
  now rewrite setitem_app_first.
Qed.

Lemma validate_loop_normalized schema treatment properties :
  Dict.lookup "properties" schema = Some (VDict properties) ->
  forall todo done,
  NoDup (Dict.keys (done ++ todo)) ->
  (forall k v, In (k, v) todo ->
     exists descriptor, Dict.lookup k properties = Some descriptor
       /\ forall ty, datelike (detect k descriptor) = Some ty ->
            exists parsed, parse v = Ok parsed) ->
  validate_loop detect parse repair schema treatment (Dict.keys todo)
    (done ++ todo)
  = (Ok (), done ++ map (normalized detect parse properties) todo).
Proof.
  intros Hp. induction todo as [|[k v] todo IH]; intros done Hnd Hall.
  - reflexivity.
  - assert (Hk : ~ In k (Dict.keys done)).
    { unfold Dict.keys in Hnd. rewrite map_app in Hnd. simpl in Hnd.
      apply NoDup_ListNoDup, List.NoDup_remove_2 in Hnd.
      intros H. apply Hnd, in_or_app. auto. }
    destruct (Hall k v (or_introl eq_refl)) as (descriptor & Hd & Hparse).
    assert (Hkey : exists v', normalized detect parse properties (k, v)
                              = (k, v')).
    { unfold normalized. rewrite Hd.
      destruct (datelike _); [destruct (parse v)|]; eauto. }
    destruct Hkey as (v' & Hv').
    change (Dict.keys ((k, v) :: todo)) with (k :: Dict.keys todo).
    cbn [validate_loop map].
    rewrite (validate_field_normalized schema treatment properties descriptor
               k v done todo Hk Hp Hd Hparse).
    rewrite Hv'.
    replace (done ++ (k, v') :: todo) with ((done ++ [(k, v')]) ++ todo)
      by now rewrite <- app_assoc.
    rewrite IH.
    + now rewrite <- app_assoc.
    + unfold Dict.keys in *. rewrite !map_app in *. simpl in *.
      now rewrite <- app_assoc.
    + intros k0 v0 H0. apply Hall. now right.
Qed.

(** When the loop raises, it raised in the iteration of one field; the
    fields before it were processed, that field and the ones after it
    are as they were. *)
Lemma validate_loop_raise schema treatment : forall todo done e record',
  NoDup (Dict.keys (done ++ todo)) ->
  validate_loop detect parse repair schema treatment (Dict.keys todo)
    (done ++ todo) = (Raise e, record') ->
  exists todo1 todo1' k v todo2,
    todo = todo1 ++ (k, v) :: todo2
    /\ record' = done ++ todo1' ++ (k, v) :: todo2
    /\ Dict.keys todo1' = Dict.keys todo1
    /\ validate_field detect parse repair schema treatment k record'
       = Raise e.
Proof.
  induction todo as [|[k v] todo IH]; intros done e record' Hnd; simpl.
  - discriminate.
  - assert (Hk : ~ In k (Dict.keys done)).
    { unfold Dict.keys in Hnd. rewrite map_app in Hnd. simpl in Hnd.
      apply NoDup_ListNoDup, List.NoDup_remove_2 in Hnd.
      intros H. apply Hnd, in_or_app. auto. }
    destruct (validate_field _ _ _ _ _ _ _) as [r1|e1] eqn:E1.
    + destruct (validate_field_ok _ _ _ _ _ _ _ _ _ _ Hk E1) as (v1 & -> & _).
      intros Hloop.
      replace (done ++ (k, v1) :: todo) with ((done ++ [(k, v1)]) ++ todo)
        in Hloop by now rewrite <- app_assoc.
      apply IH in Hloop.
      * destruct Hloop as (t1 & t1' & k0 & v0 & t2 & -> & -> & Hkeys & Hf).
        exists ((k, v) :: t1), ((k, v1) :: t1'), k0, v0, t2.
        split; [reflexivity|]. split; [now rewrite <- app_assoc|].
        split; [simpl; now rewrite Hkeys|exact Hf].
      * unfold Dict.keys in *. rewrite !map_app in *. simpl in *.
        now rewrite <- app_assoc.
    + intros [= <- <-]. exists [], [], k, v, todo. auto.
Qed.

End TimestampLoop.

(** X3.  [_validate_timestamps_in_record] never adds, removes or reorders
    fields: whether it returns or raises, the record it leaves has the
    keys of the record it was given, in the same order. *)
Theorem validate_timestamps_keeps_keys
    (detect : string -> pyval -> option string)
    (parse : pyval -> pyresult pyval)
    (repair : pydict -> list string -> pyval -> string -> exn ->
              Sink.DatetimeErrorTreatmentEnum -> pyresult pyval)
    (self : Sink.Sink) (record schema : pydict)
    (treatment : Sink.DatetimeErrorTreatmentEnum) :
  Dict.keys (snd (Sink._validate_timestamps_in_record detect parse repair
                    self record schema treatment))
  = Dict.keys record.
Proof.
  unfold Sink._validate_timestamps_in_record.
  apply validate_loop_keys. auto.
Qed.

(** X4.  A record all of whose fields have a descriptor that is not
    date-like passes through unchanged, whatever the parser, the repair
    routine and the treatment are. *)
Theorem validate_timestamps_plain_record
    (detect : string -> pyval -> option string)
    (parse : pyval -> pyresult pyval)
    (repair : pydict -> list string -> pyval -> string -> exn ->
              Sink.DatetimeErrorTreatmentEnum -> pyresult pyval)
    (self : Sink.Sink) (record schema properties : pydict)
    (treatment : Sink.DatetimeErrorTreatmentEnum) :
  Dict.lookup "properties" schema = Some (VDict properties) ->
  (forall k, In k (Dict.keys record) ->
     exists descriptor, Dict.lookup k properties = Some descriptor
       /\ Sink.datelike (detect k descriptor) = None) ->
  Sink._validate_timestamps_in_record detect parse repair self record schema
    treatment
  = (Ok (), record).
Proof.
  intros Hp Hall. unfold Sink._validate_timestamps_in_record.
  now apply validate_loop_plain with (properties := properties).
Qed.

Lemma validate_timestamps_plain_record_witness :
  Sink._validate_timestamps_in_record Samples.detect Samples.parse
    Samples.repair Samples.a_sink Samples.plain_record Samples.date_schema
    Sink.ERROR
  = (Ok (), Samples.plain_record).
Proof.
  apply (validate_timestamps_plain_record Samples.detect Samples.parse
           Samples.repair Samples.a_sink Samples.plain_record
           Samples.date_schema Samples.date_properties Sink.ERROR).
  - reflexivity.
  - intros k [<-|[]]. eexists. split; reflexivity.
Defined.

(** X5.  On a record with distinct keys whose fields all have a
    descriptor and whose date-like fields all parse, the call returns and
    leaves the record with each date-like value replaced by its parsed
    form and every other field as it was; the repair routine and the
    treatment play no part. *)
Theorem validate_timestamps_all_parse
    (detect : string -> pyval -> option string)
    (parse : pyval -> pyresult pyval)
    (repair : pydict -> list string -> pyval -> string -> exn ->
              Sink.DatetimeErrorTreatmentEnum -> pyresult pyval)
    (self : Sink.Sink) (record schema properties : pydict)
    (treatment : Sink.DatetimeErrorTreatmentEnum) :
  NoDup (Dict.keys record) ->
  Dict.lookup "properties" schema = Some (VDict properties) ->
  (forall k v, In (k, v) record ->
     exists descriptor, Dict.lookup k properties = Some descriptor
       /\ forall ty, Sink.datelike (detect k descriptor) = Some ty ->
            exists parsed, parse v = Ok parsed) ->
  Sink._validate_timestamps_in_record detect parse repair self record schema
    treatment
  = (Ok (), map (Sink.normalized detect parse properties) record).
Proof.
  intros Hnd Hp Hall. unfold Sink._validate_timestamps_in_record.
  exact (validate_loop_normalized detect parse repair schema treatment
           properties Hp record [] Hnd Hall).
Qed.

Lemma validate_timestamps_all_parse_witness :
  Sink._validate_timestamps_in_record Samples.detect Samples.parse
    Samples.repair Samples.a_sink Samples.good_record Samples.date_schema
    Sink.ERROR
  = (Ok (),
     map (Sink.normalized Samples.detect Samples.parse Samples.date_properties)
       Samples.good_record).
Proof.
  apply (validate_timestamps_all_parse Samples.detect Samples.parse
           Samples.repair Samples.a_sink Samples.good_record
           Samples.date_schema Samples.date_properties Sink.ERROR).
  - apply (bool_decide_unpack _). vm_compute. exact I.
  - reflexivity.
  - intros k v [[= <- <-]|[[= <- <-]|[]]].
    + eexists. split; [reflexivity|]. intros ty. discriminate.
    + eexists. split; [reflexivity|]. intros ty _. eexists. reflexivity.
Defined.

Example validate_timestamps_all_parse_run :
  map (Sink.normalized Samples.detect Samples.parse Samples.date_properties)
    Samples.good_record
  = [("id", VInt 7); ("created", VDatetime (mkDatetime 2021 3 7 0 0 0 0))].
Proof. vm_compute. reflexivity. Qed.

(** X6.  When the call raises on a record with distinct keys, it raised
    while handling one field: that field and all the fields after it are
    exactly as they were given (the fields before it have been
    processed), and handling that field on the record as left raises the
    same exception. *)
Theorem validate_timestamps_raise_leaves_rest
    (detect : string -> pyval -> option string)
    (parse : pyval -> pyresult pyval)
    (repair : pydict -> list string -> pyval -> string -> exn ->
              Sink.DatetimeErrorTreatmentEnum -> pyresult pyval)
    (self : Sink.Sink) (record schema : pydict)
    (treatment : Sink.DatetimeErrorTreatmentEnum) (e : exn) :
  NoDup (Dict.keys record) ->
  fst (Sink._validate_timestamps_in_record detect parse repair self record
         schema treatment) = Raise e ->
  let record' := snd (Sink._validate_timestamps_in_record detect parse repair
                        self record schema treatment) in
  exists i k v,
    record !! i = Some (k, v)
    /\ drop i record' = drop i record
    /\ length record' = length record
    /\ Sink.validate_field detect parse repair schema treatment k record'
       = Raise e.
Proof.
  intros Hnd He. unfold Sink._validate_timestamps_in_record in *.
  destruct (Sink.validate_loop _ _ _ _ _ _ _) as [r record'] eqn:E.
  simpl in He. subst r. cbv zeta. cbn [snd].
  destruct (validate_loop_raise detect parse repair schema treatment
              record [] e record' Hnd E)
    as (t1 & t1' & k & v & t2 & -> & -> & Hkeys & Hf).
  assert (Hlen : length t1' = length t1).
  { apply (f_equal (@length _)) in Hkeys. unfold Dict.keys in Hkeys.
    now rewrite !length_map in Hkeys. }
  exists (length t1), k, v. cbn [app]. split; [|split; [|split]].
  - apply list_lookup_middle. reflexivity.
  - rewrite <- Hlen at 1. now rewrite !drop_app_length.
  - rewrite !length_app. simpl. lia.
  - exact Hf.
Qed.

Lemma validate_timestamps_raise_leaves_rest_witness :
  let record' := snd (Sink._validate_timestamps_in_record Samples.detect
                        Samples.parse Samples.repair Samples.a_sink
                        Samples.date_record Samples.date_schema Sink.ERROR) in
  exists i k v,
    Samples.date_record !! i = Some (k, v)
    /\ drop i record' = drop i Samples.date_record
    /\ length record' = length Samples.date_record
    /\ Sink.validate_field Samples.detect Samples.parse Samples.repair
         Samples.date_schema Sink.ERROR k record'
       = Raise (ValueError "Could not parse value").
Proof.
  apply (validate_timestamps_raise_leaves_rest Samples.detect Samples.parse
           Samples.repair Samples.a_sink Samples.date_record
           Samples.date_schema Sink.ERROR
           (ValueError "Could not parse value")).
  - apply (bool_decide_unpack _). vm_compute. exact I.
  - vm_compute. reflexivity.
Defined.

(** ** The sink: buffer and drain cycle, continued *)

Section SinkStore.

Import Sink.

Lemma heap_records_app (h1 h2 : list pyobj) :
  heap_records (h1 ++ h2) = heap_records h1 ++ heap_records h2.
Proof.
  induction h1 as [|[items|ty len|ty truth len] h1 IH]; simpl;
    [reflexivity| |exact IH|exact IH].
  now rewrite IH, app_assoc.
Qed.

(** The buffer is the newest object of the store, and the list objects
    allocated since the sink was made hold the loaded records in order. *)
Lemma step_newest o self w (h0 new : list pyobj) items :
  heap w = h0 ++ new ++ [ObjList items] ->
  records_to_drain self = length (h0 ++ new) ->
  exists self' w' new' items',
    step o (self, w) = Ok (self', w')
    /\ heap w' = h0 ++ new' ++ [ObjList items']
    /\ records_to_drain self' = length (h0 ++ new')
    /\ heap_records (new' ++ [ObjList items'])
       = heap_records (new ++ [ObjList items]) ++ loaded [o].
Proof.
  intros Hh Ha. destruct o as [r| |]; cbn [step loaded].
  - unfold load_record, deref. rewrite Ha, Hh, app_assoc.
    rewrite list_lookup_middle by reflexivity. bind_step.
    exists self, {| heap := <[length (h0 ++ new) := ObjList (items ++ [r])]>
                              ((h0 ++ new) ++ [ObjList items]);
                    logged := logged w |}, new, (items ++ [r]).
    split; [reflexivity|]. cbn [heap].
    split; [|split; [exact Ha|]].
    + rewrite insert_app_r_alt by lia. rewrite Nat.sub_diag. simpl.
      now rewrite <- app_assoc.
    + rewrite !heap_records_app. simpl. now rewrite !app_nil_r, <- app_assoc.
  - unfold start_drain, alloc. cbn.
    eexists _, _, (new ++ [ObjList items]), []. split; [reflexivity|].
    cbn [heap records_to_drain]. rewrite Hh. split; [|split].
    + now rewrite <- !app_assoc.
    + reflexivity.
    + rewrite (heap_records_app (new ++ [ObjList items])). reflexivity.
  - exists (mark_drained self), w, new, items. rewrite app_nil_r. auto.
Qed.

Lemma run_newest ops : forall self w (h0 new : list pyobj) items,
  heap w = h0 ++ new ++ [ObjList items] ->
  records_to_drain self = length (h0 ++ new) ->
  exists self' w' new' items',
    run ops (self, w) = Ok (self', w')
    /\ heap w' = h0 ++ new' ++ [ObjList items']
    /\ records_to_drain self' = length (h0 ++ new')
    /\ heap_records (new' ++ [ObjList items'])
       = heap_records (new ++ [ObjList items]) ++ loaded ops.
Proof.
  induction ops as [|o ops IH]; intros self w h0 new items Hh Ha.
  - exists self, w, new, items. rewrite app_nil_r. auto.
  - destruct (step_newest o self w h0 new items Hh Ha)
      as (s1 & w1 & n1 & i1 & E1 & Hh1 & Ha1 & R1).
    destruct (IH s1 w1 h0 n1 i1 Hh1 Ha1)
      as (s2 & w2 & n2 & i2 & E2 & Hh2 & Ha2 & R2).
    exists s2, w2, n2, i2. cbn [run]. rewrite E1. bind_step.
    split; [exact E2|]. split; [exact Hh2|]. split; [exact Ha2|].
    rewrite R2, R1, <- app_assoc. f_equal.
    destruct o; reflexivity.
Qed.

(** The buffer operations leave the counters, the schema, the stream name
    and the configuration alone. *)
Lemma step_keeps_counters o self w self' w' :
  step o (self, w) = Ok (self', w') ->
  _total_records_read self' = _total_records_read self
  /\ _total_records_written self' = _total_records_written self
  /\ _dupe_records_merged self' = _dupe_records_merged self
  /\ schema self' = schema self
  /\ stream_name self' = stream_name self
  /\ _config self' = _config self.
Proof.
  destruct o as [r| |]; cbn [step].
  - destruct (load_record r self w); [|discriminate].
    intros [= <- <-]. auto 10.
  - unfold start_drain, alloc. intros [= <- <-]. cbn. auto 10.
  - intros [= <- <-]. cbn. auto 10.
Qed.

Lemma run_tallies_cons t ts self :
  run_tallies (t :: ts) self = run_tallies ts (tally_step t self).
Proof. reflexivity. Qed.

End SinkStore.

(** X7.  From a new sink, whatever sequence of [load_record],
    [start_drain] and [mark_drained] is run, no record is lost, repeated
    or reordered: the objects that were in the store before are untouched,
    and the list objects allocated since hold, read in allocation order,
    exactly the records passed to [load_record] in call order; the buffer
    is always the newest of them. *)
Theorem drain_cycles_keep_every_record (target_config : pydict)
    (name : string) (schema : pydict) (key_properties : option (list string))
    (w0 : Sink.world) (ops : list Sink.op) :
  exists self w new,
    Sink.run ops (Sink.__init__ target_config name schema key_properties w0)
    = Ok (self, w)
    /\ Sink.heap w = Sink.heap w0 ++ new
    /\ Sink.heap_records new = Sink.loaded ops
    /\ S (Sink.records_to_drain self) = length (Sink.heap w).
Proof.
  unfold Sink.__init__, Sink.alloc. cbn [Sink.heap Sink.logged].
  match goal with
  | |- exists self w new, Sink.run ops (?s, ?w1) = _ /\ _ =>
      destruct (run_newest ops s w1 (Sink.heap w0) [] [])
        as (self & w & new & items & E & Hh & Ha & R)
  end.
  - reflexivity.
  - cbn. now rewrite app_nil_r.
  - exists self, w, (new ++ [Sink.ObjList items]).
    split; [exact E|]. split; [exact Hh|]. split; [exact R|].
    rewrite Hh, Ha, !length_app. simpl. lia.
Qed.

Example drain_cycles_run :
  match Sink.run [Sink.LoadRecord Samples.rec_a; Sink.StartDrain;
                  Sink.LoadRecord Samples.rec_b; Sink.StartDrain;
                  Sink.MarkDrained; Sink.LoadRecord Samples.rec_c]
          (Samples.a_sink, Samples.a_world) with
  | Ok (self, w) =>
      Sink.heap_records (Sink.heap w)
      = [Samples.rec_a; Samples.rec_b; Samples.rec_c]
  | Raise _ => False
  end.
Proof. reflexivity. Qed.

(** X8.  Two sinks made one after the other have different buffers:
    records loaded into either one appear in its own buffer and leave the
    buffer of the other empty. *)
Theorem sinks_have_separate_buffers
    (config1 config2 : pydict) (name1 name2 : string)
    (schema1 schema2 : pydict) (keys1 keys2 : option (list string))
    (w0 : Sink.world) (rs : list pydict) :
  let st1 := Sink.__init__ config1 name1 schema1 keys1 w0 in
  let st2 := Sink.__init__ config2 name2 schema2 keys2 (snd st1) in
  let s1 := fst st1 in
  let s2 := fst st2 in
  Sink.records_to_drain s1 <> Sink.records_to_drain s2
  /\ (exists w, Sink.run (map Sink.LoadRecord rs) (s1, snd st2) = Ok (s1, w)
        /\ Sink.holds s1 w rs /\ Sink.holds s2 w [])
  /\ (exists w, Sink.run (map Sink.LoadRecord rs) (s2, snd st2) = Ok (s2, w)
        /\ Sink.holds s2 w rs /\ Sink.holds s1 w []).
Proof.
  cbv zeta.
  set (s1 := fst (Sink.__init__ config1 name1 schema1 keys1 w0)).
  set (w1 := snd (Sink.__init__ config1 name1 schema1 keys1 w0)).
  set (s2 := fst (Sink.__init__ config2 name2 schema2 keys2 w1)).
  set (w2 := snd (Sink.__init__ config2 name2 schema2 keys2 w1)).
  assert (H2 : Sink.holds s2 w2 []) by apply init_holds.
  assert (H1 : Sink.holds s1 w2 []).
  { unfold Sink.holds, s1, w2, w1, Sink.__init__, Sink.alloc. cbn.
    rewrite lookup_app_l by (rewrite length_app; simpl; lia).
    apply list_lookup_middle. reflexivity. }
  assert (Hne : Sink.records_to_drain s1 <> Sink.records_to_drain s2).
  { unfold s1, s2, w1, Sink.__init__, Sink.alloc. cbn.
    rewrite length_app. simpl. lia. }
  split; [exact Hne|]. split.
  - destruct (load_records_hold rs s1 w2 [] H1) as (w & E & H & F).
    exists w. split; [exact E|]. split; [exact H|].
    unfold Sink.holds. rewrite F; [exact H2|congruence].
  - destruct (load_records_hold rs s2 w2 [] H2) as (w & E & H & F).
    exists w. split; [exact E|]. split; [exact H|].
    unfold Sink.holds. rewrite F; [exact H1|exact Hne].
Qed.

(** X9.  The buffer operations never count anything: after any sequence
    of [load_record], [start_drain] and [mark_drained] that does not
    raise, the three counters, the schema, the stream name and the
    configuration of the sink are what they were. *)
Theorem buffer_operations_keep_counters (ops : list Sink.op)
    (self : Sink.Sink) (w : Sink.world) :
  match Sink.run ops (self, w) with
  | Ok (self', _) =>
      Sink._total_records_read self' = Sink._total_records_read self
      /\ Sink._total_records_written self' = Sink._total_records_written self
      /\ Sink._dupe_records_merged self' = Sink._dupe_records_merged self
      /\ Sink.schema self' = Sink.schema self
      /\ Sink.stream_name self' = Sink.stream_name self
      /\ Sink._config self' = Sink._config self
  | Raise _ => True
  end.
Proof.
  revert self w. induction ops as [|o ops IH]; intros self w; cbn [Sink.run].
  - auto 10.
  - destruct (Sink.step o (self, w)) as [[s1 w1]|e] eqn:E; [|exact I].
    bind_step. specialize (IH s1 w1).
    destruct (Sink.run ops (s1, w1)) as [[s2 w2]|e]; [|exact I].
    apply step_keeps_counters in E.
    destruct E as (E1 & E2 & E3 & E4 & E5 & E6).
    destruct IH as (I1 & I2 & I3 & I4 & I5 & I6).
    rewrite I1, I2, I3, I4, I5, I6. auto 10.
Qed.

(** X10.  The tally methods add up and touch nothing else: after any
    sequence of tally calls each counter is its old value plus the sum of
    the counts given to its own method, the buffer references are
    unchanged, and with counts that are not negative no counter
    decreases. *)
Theorem tallies_add_up (ts : list Sink.tally) (self : Sink.Sink) :
  let self' := Sink.run_tallies ts self in
  Sink._total_records_read self'
    = Sink._total_records_read self + Sink.read_sum ts
  /\ Sink._total_records_written self'
     = Sink._total_records_written self + Sink.written_sum ts
  /\ Sink._dupe_records_merged self'
     = Sink._dupe_records_merged self + Sink.merged_sum ts
  /\ Sink.records_to_drain self' = Sink.records_to_drain self
  /\ Sink._records_draining self' = Sink._records_draining self
  /\ (Forall (fun t => 0 <= Sink.tally_count t) ts ->
      Sink._total_records_read self <= Sink._total_records_read self'
      /\ Sink._total_records_written self
         <= Sink._total_records_written self'
      /\ Sink._dupe_records_merged self <= Sink._dupe_records_merged self').
Proof.
  cbv zeta. revert self. induction ts as [|t ts IH]; intros self.
  - cbn. repeat split; lia.
  - rewrite run_tallies_cons.
    destruct (IH (Sink.tally_step t self)) as (I1 & I2 & I3 & I4 & I5 & I6).
    assert (R : Sink.read_sum (t :: ts)
                = Sink.read_sum [t] + Sink.read_sum ts
                /\ Sink.written_sum (t :: ts)
                   = Sink.written_sum [t] + Sink.written_sum ts
                /\ Sink.merged_sum (t :: ts)
                   = Sink.merged_sum [t] + Sink.merged_sum ts).
    { unfold Sink.read_sum, Sink.written_sum, Sink.merged_sum.
      destruct t; cbn [fold_right]; repeat split; lia. }
    destruct R as (R1 & R2 & R3).
    assert (T : Sink._total_records_read (Sink.tally_step t self)
                = Sink._total_records_read self + Sink.read_sum [t]
                /\ Sink._total_records_written (Sink.tally_step t self)
                   = Sink._total_records_written self + Sink.written_sum [t]
                /\ Sink._dupe_records_merged (Sink.tally_step t self)
                   = Sink._dupe_records_merged self + Sink.merged_sum [t]
                /\ (0 <= Sink.tally_count t ->
                    0 <= Sink.read_sum [t] /\ 0 <= Sink.written_sum [t]
                    /\ 0 <= Sink.merged_sum [t])).
    { destruct t; cbn; repeat split; lia. }
    destruct T as (T1 & T2 & T3 & T4).
    rewrite I1, I2, I3, I4, I5, T1, T2, T3, R1, R2, R3.
    split; [lia|]. split; [lia|]. split; [lia|].
    split; [destruct t; reflexivity|]. split; [destruct t; reflexivity|].
    intros Hall. apply Forall_cons in Hall as [Ht Hall].
    specialize (I6 Hall). rewrite I1, I2, I3, T1, T2, T3 in I6.
    specialize (T4 Ht). lia.
Qed.

(** X11.  Two [start_drain()] calls in a row: the second returns a new,
    empty batch; the first batch is untouched in the store but the sink no
    longer refers to it, [_records_draining] being the second batch. *)
Theorem start_drain_twice (self : Sink.Sink) (w : Sink.world)
    (items : list pydict) :
  Sink.holds self w items ->
  let '(batch1, self1, w1) := Sink.start_drain self w in
  let '(batch2, self2, w2) := Sink.start_drain self1 w1 in
  batch1 <> batch2
  /\ Sink.heap w2 !! batch1 = Some (Sink.ObjList items)
  /\ Sink.heap w2 !! batch2 = Some (Sink.ObjList [])
  /\ Sink._records_draining self2 = Some batch2
  /\ Sink.holds self2 w2 []
  /\ Sink.records_to_drain self2 <> batch1
  /\ Sink.records_to_drain self2 <> batch2.
Proof.
  intros H.
  pose proof (start_drain_holds self w items H) as S1.
  destruct (Sink.start_drain self w) as [[batch1 self1] w1].
  destruct S1 as (_ & Hb1 & _ & Hn1 & Hne1).
  pose proof (start_drain_holds self1 w1 [] Hn1) as S2.
  unfold Sink.start_drain, Sink.alloc in *. cbn in *.
  destruct S2 as (_ & Hb2 & _ & Hn2 & Hne2).
  pose proof (lookup_lt_Some _ _ _ Hb1) as L1.
  pose proof (lookup_lt_Some _ _ _ Hn1) as L2.
  split; [congruence|]. split.
  - rewrite lookup_app_l by assumption. exact Hb1.
  - split; [exact Hb2|]. split; [reflexivity|]. split; [exact Hn2|].
    split; lia.
Qed.

Lemma start_drain_twice_witness :
  let '(batch1, self1, w1) := Sink.start_drain Samples.a_sink Samples.a_world in
  let '(batch2, self2, w2) := Sink.start_drain self1 w1 in
  batch1 <> batch2
  /\ Sink.heap w2 !! batch1 = Some (Sink.ObjList [])
  /\ Sink.heap w2 !! batch2 = Some (Sink.ObjList [])
  /\ Sink._records_draining self2 = Some batch2
  /\ Sink.holds self2 w2 []
  /\ Sink.records_to_drain self2 <> batch1
  /\ Sink.records_to_drain self2 <> batch2.
Proof.
  apply (start_drain_twice Samples.a_sink Samples.a_world []).
  reflexivity.
Defined.



(** ** The tap: configuration validation, continued *)

Section ValidateConfigMore.

Import Tap.

(** The value of [validate_config()] in closed form. *)
Lemma validate_config_value self config accepted sets :
  _config self = Some config ->
  _accepted_options self = Some accepted ->
  _option_set_requirements self = Some sets ->
  validate_config self
  = Ok (map unexpected_option
          (List.filter (fun k => negb (str_in k accepted)) (Dict.keys config)),
        match sets with
        | [] => []
        | _ :: _ =>
            if negb (existsb (forallb (fun x => str_in x (Dict.keys config)))
                       sets)
            then [missing_options
                    (map (List.filter
                            (fun x => negb (str_in x (Dict.keys config))))
                       (List.filter
                          (fun s => negb (forallb
                                            (fun x => str_in x (Dict.keys config))
                                            s))
                          sets))]
            else []
        end).
Proof.
  intros Hc Ha Hs. unfold validate_config, attr. rewrite Hc, Hs. bind_step.
  rewrite (warnings_loop_spec self accepted Ha). simpl.
  destruct sets as [|s sets']; [reflexivity|].
  rewrite (required_loop_spec self config Hc). simpl.
  destruct (forallb _ s || existsb _ sets')%bool; reflexivity.
Qed.

Lemma warnings_loop_ext self1 self2 :
  _accepted_options self1 = _accepted_options self2 ->
  forall keys warnings,
    warnings_loop self1 keys warnings = warnings_loop self2 keys warnings.
Proof.
  intros H. induction keys as [|k keys IH]; intros warnings; simpl;
    [reflexivity|].
  rewrite H. destruct (attr _ (_accepted_options self2)) as [accepted|e];
    [|reflexivity].
  bind_step. destruct (negb (str_in k accepted)); apply IH.
Qed.

Lemma filter_nil_iff {A} (p : A -> bool) (l : list A) :
  List.filter p l = [] <-> forall x, In x l -> p x = false.
Proof.
  induction l as [|a l IH]; simpl; [tauto|].
  destruct (p a) eqn:E.
  - split; [discriminate|]. intros H. specialize (H a (or_introl eq_refl)).
    congruence.
  - rewrite IH. split.
    + intros H x [<-|Hx]; auto.
    + intros H x Hx. apply H. now right.
Qed.

Lemma filter_length_le {A} (p : A -> bool) (l : list A) :
  (length (List.filter p l) <= length l)%nat.
Proof.
  induction l as [|a l IH]; simpl; [lia|]. destruct (p a); simpl; lia.
Qed.

Lemma satisfied_iff (keys s : list string) :
  forallb (fun x => str_in x keys) s = true <-> forall x, In x s -> In x keys.
Proof.
  rewrite forallb_forall. split; intros H x Hx; apply str_in_In; auto.
Qed.

End ValidateConfigMore.

(** X13.  [validate_config()] looks at the keys of the configuration only:
    two taps with the same accepted options and requirements whose
    configurations have the same keys in the same order get the same
    warnings and errors, whatever the configured values are. *)
Theorem validate_config_ignores_values (self1 self2 : Tap.TapBase)
    (config1 config2 : pydict) :
  Tap._config self1 = Some config1 ->
  Tap._config self2 = Some config2 ->
  Dict.keys config1 = Dict.keys config2 ->
  Tap._accepted_options self1 = Tap._accepted_options self2 ->
  Tap._option_set_requirements self1 = Tap._option_set_requirements self2 ->
  Tap.validate_config self1 = Tap.validate_config self2.
Proof.
  intros H1 H2 Hk Ha Hs. unfold Tap.validate_config, Tap.attr.
  rewrite H1, H2, Hs. bind_step. rewrite Hk.
  rewrite (warnings_loop_ext self1 self2 Ha).
  destruct (Tap.warnings_loop self2 (Dict.keys config2) []) as [ws|e];
    [|reflexivity].
  destruct (Tap._option_set_requirements self2) as [sets|]; [|reflexivity].
  destruct sets as [|s sets']; [reflexivity|].
  rewrite (required_loop_spec self1 config1 H1).
  rewrite (required_loop_spec self2 config2 H2).
  now rewrite Hk.
Qed.

Lemma validate_config_ignores_values_witness :
  Tap.validate_config
    (Samples.a_tap ["user"] [["user"; "password"]]
       [("user", VStr "a"); ("extra", VInt 1)])
  = Tap.validate_config
      (Samples.a_tap ["user"] [["user"; "password"]]
         [("user", VNone); ("extra", VStr "zzz")]).
Proof.
  apply (validate_config_ignores_values
           (Samples.a_tap ["user"] [["user"; "password"]]
              [("user", VStr "a"); ("extra", VInt 1)])
           (Samples.a_tap ["user"] [["user"; "password"]]
              [("user", VNone); ("extra", VStr "zzz")])
           [("user", VStr "a"); ("extra", VInt 1)]
           [("user", VNone); ("extra", VStr "zzz")]);
    reflexivity.
Defined.

(** X14.  On a tap whose configuration, accepted options and
    requirements are assigned, [validate_config()] returns at most one
    warning per configuration key and at most one error, and it returns no
    warning exactly when every configuration key is an accepted option. *)
Theorem validate_config_bounds (self : Tap.TapBase) (config : pydict)
    (accepted : list string) (sets : list (list string)) :
  Tap._config self = Some config ->
  Tap._accepted_options self = Some accepted ->
  Tap._option_set_requirements self = Some sets ->
  exists warnings errors,
    Tap.validate_config self = Ok (warnings, errors)
    /\ (warnings = [] <-> forall k, In k (Dict.keys config) -> In k accepted)
    /\ (length warnings <= length config)%nat
    /\ (length errors <= 1)%nat.
Proof.
  intros Hc Ha Hs.
  rewrite (validate_config_value self config accepted sets Hc Ha Hs).
  eexists _, _. split; [reflexivity|]. split; [|split].
  - split.
    + intros H k Hk. apply map_eq_nil in H.
      pose proof (proj1 (filter_nil_iff _ _) H k Hk) as Hf. cbn beta in Hf.
      apply str_in_In. now destruct (Tap.str_in k accepted).
    + intros H.
      replace (List.filter _ (Dict.keys config)) with (@nil string);
        [reflexivity|].
      symmetry. apply filter_nil_iff. intros k Hk.
      apply H, str_in_In in Hk. now rewrite Hk.
  - rewrite length_map. unfold Dict.keys.
    etransitivity; [apply filter_length_le|]. now rewrite length_map.
  - destruct sets as [|s sets']; [simpl; lia|].
    destruct (negb _); simpl; lia.
Qed.

Lemma validate_config_bounds_witness :
  exists warnings errors,
    Tap.validate_config
      (Samples.a_tap ["host"; "port"] [["host"]] [("host", VStr "x")])
    = Ok (warnings, errors)
    /\ (warnings = [] <->
        forall k, In k (Dict.keys [("host", VStr "x")]) ->
                  In k ["host"; "port"])
    /\ (length warnings <= length [("host", VStr "x")])%nat
    /\ (length errors <= 1)%nat.
Proof.
  apply (validate_config_bounds
           (Samples.a_tap ["host"; "port"] [["host"]] [("host", VStr "x")])
           [("host", VStr "x")] ["host"; "port"] [["host"]]);
    reflexivity.
Defined.

(** X15.  An empty option set among the requirements is satisfied by
    every configuration: [validate_config()] then reports no error,
    whatever the other sets and the configuration are. *)
Theorem validate_config_empty_set (self : Tap.TapBase) (config : pydict)
    (accepted : list string) (sets : list (list string)) :
  Tap._config self = Some config ->
  Tap._accepted_options self = Some accepted ->
  Tap._option_set_requirements self = Some sets ->
  In [] sets ->
  exists warnings, Tap.validate_config self = Ok (warnings, []).
Proof.
  intros Hc Ha Hs Hin.
  rewrite (validate_config_value self config accepted sets Hc Ha Hs).
  eexists. f_equal. f_equal.
  destruct sets as [|s sets']; [reflexivity|].
  replace (existsb _ (s :: sets')) with true; [reflexivity|].
  symmetry. apply existsb_exists. exists []. split; [exact Hin|reflexivity].
Qed.

Lemma validate_config_empty_set_witness :
  exists warnings,
    Tap.validate_config
      (Samples.a_tap ["user"] [["user"; "password"]; []] [])
    = Ok (warnings, []).
Proof.
  apply (validate_config_empty_set
           (Samples.a_tap ["user"] [["user"; "password"]; []] [])
           [] ["user"] [["user"; "password"]; []]);
    try reflexivity.
  right. left. reflexivity.
Defined.

(** X16.  The loop over the required sets, run as [validate_config()]
    runs it: it reports a match exactly when some set has all its options
    among the configuration keys; every entry it collects as missing is
    non-empty and names only options that are not configuration keys; and
    when nothing matched there is one entry per required set. *)
Theorem required_loop_missing (self : Tap.TapBase) (config : pydict)
    (sets : list (list string)) :
  Tap._config self = Some config ->
  exists matched_any missing,
    Tap.required_loop self sets false [] = Ok (matched_any, missing)
    /\ (matched_any = true <->
        exists s, In s sets /\ forall x, In x s -> In x (Dict.keys config))
    /\ Forall (fun ms => ms <> []
                 /\ forall x, In x ms -> ~ In x (Dict.keys config)) missing
    /\ (length missing <= length sets)%nat
    /\ (matched_any = false -> length missing = length sets).
Proof.
  intros Hc. rewrite (required_loop_spec self config Hc). cbn [orb app].
  set (sat := forallb (fun x => Tap.str_in x (Dict.keys config))).
  eexists _, _. split; [reflexivity|]. split; [|split; [|split]].
  - rewrite existsb_exists. split.
    + intros (s & Hs & Hsat). exists s. split; [exact Hs|].
      now apply satisfied_iff.
    + intros (s & Hs & Hsat). exists s. split; [exact Hs|].
      now apply satisfied_iff.
  - apply Forall_forall. intros ms Hms.
    apply list_elem_of_In, in_map_iff in Hms as (s & <- & Hs).
    apply filter_In in Hs as [_ Hs]. split.
    + intros Hnil. apply negb_true_iff in Hs.
      assert (Hsat : sat s = true); [|congruence].
      apply satisfied_iff. intros x Hx.
      pose proof (proj1 (filter_nil_iff _ _) Hnil x Hx) as Hf.
      cbn beta in Hf. apply str_in_In.
      now destruct (Tap.str_in x (Dict.keys config)).
    + intros x Hx. apply filter_In in Hx as [_ Hx].
      now apply str_in_not_In.
  - rewrite length_map. apply filter_length_le.
  - intros Hex. rewrite length_map. f_equal.
    induction sets as [|s sets IH]; [reflexivity|].
    simpl in Hex. apply orb_false_iff in Hex as [Hs Hrest].
    simpl. fold sat. rewrite Hs. simpl. f_equal. now apply IH.
Qed.

Lemma required_loop_missing_witness :
  exists matched_any missing,
    Tap.required_loop
      (Samples.a_tap ["user"] [["user"; "password"]; ["token"]]
         [("user", VStr "a")])
      [["user"; "password"]; ["token"]] false []
    = Ok (matched_any, missing)
    /\ (matched_any = true <->
        exists s, In s [["user"; "password"]; ["token"]]
                  /\ forall x, In x s -> In x (Dict.keys [("user", VStr "a")]))
    /\ Forall (fun ms => ms <> []
                 /\ forall x, In x ms ->
                      ~ In x (Dict.keys [("user", VStr "a")])) missing
    /\ (length missing <= length [["user"; "password"]; ["token"]])%nat
    /\ (matched_any = false ->
        length missing = length [["user"; "password"]; ["token"]]).
Proof.
  apply (required_loop_missing
           (Samples.a_tap ["user"] [["user"; "password"]; ["token"]]
              [("user", VStr "a")])
           [("user", VStr "a")] [["user"; "password"]; ["token"]]).
  reflexivity.
Defined.

(** ** The tap: catalog file and connection, continued *)

(** X17.  With the [get_catalog()] of the base class, which returns
    [None], [write_catalog_file] raises [AttributeError] before anything
    is written, for every path.  With any [get_catalog], a call that
    returns has returned the path it was given, after writing to that path
    the serialized dictionary form of the catalog. *)
Theorem write_catalog_file_base (catalog : Type) (to_dict : catalog -> pyval)
    (dumps : pyval -> pyresult string) (FS : Type)
    (write_text : string -> string -> FS -> pyresult Z * FS)
    (self : Tap.TapBase) (outfile : string) (fs : FS) :
  Tap.write_catalog_file catalog to_dict dumps FS write_text
    (Tap.get_catalog catalog) self outfile fs
  = (Raise (AttributeError "to_dict"), fs)
  /\ forall get_catalog path fs',
       Tap.write_catalog_file catalog to_dict dumps FS write_text
         get_catalog self outfile fs = (Ok path, fs') ->
       path = outfile
       /\ exists c text n,
            get_catalog self = Some c
            /\ dumps (to_dict c) = Ok text
            /\ write_text outfile text fs = (Ok n, fs').
Proof.
  split; [reflexivity|].
  intros gc path fs'. unfold Tap.write_catalog_file.
  destruct (gc self) as [c|]; [|discriminate].
  destruct (dumps (to_dict c)) as [text|e] eqn:Ed; [|discriminate].
  destruct (write_text outfile text fs) as [[n|e] fs1] eqn:Ew;
    [|discriminate].
  intros [= <- <-]. split; [reflexivity|].
  exists c, text, n. split; [reflexivity|]. split; [exact Ed|exact Ew].
Qed.

Section ConnectionReuse.

Import Tap.

Variable class_conn : option pyref.

(** Creation, when [_conn] is false. *)
Lemma get_connection_creates self h c cls config :
  attr_conn class_conn self = Ok c ->
  ref_bool c h = false ->
  _conn_class self = Some cls ->
  _config self = Some config ->
  cc_init cls config = None ->
  get_connection class_conn self h
  = Ok (RObj (length h), set_conn (RObj (length h)) self,
        h ++ [{| inst_class := cls; inst_config := config |}]).
Proof.
  intros Hc Hb Hcls Hcfg Hinit.
  unfold get_connection. rewrite Hc. bind_step. rewrite Hb. cbn [negb].
  rewrite Hcls, Hcfg. unfold attr, instantiate. rewrite Hinit. reflexivity.
Qed.

Lemma get_connections_existing self h c :
  attr_conn class_conn self = Ok c ->
  ref_bool c h = true ->
  forall n,
    get_connections class_conn n self h = Ok (repeat c n, self, h).
Proof.
  intros Hc Hb. induction n as [|n IH]; [reflexivity|].
  cbn [get_connections repeat].
  rewrite (get_connection_existing class_conn self h c Hc Hb). bind_step.
  rewrite IH. reflexivity.
Qed.

End ConnectionReuse.

(** X18.  When the instances of the connection class are false as truth
    values, [get_connection()] never finds its connection: on a tap whose
    [_conn] is false, two calls construct two connections and return two
    different references. *)
Theorem get_connection_false_instances (class_conn : option Tap.pyref)
    (self : Tap.TapBase) (h : Tap.heap) (c : Tap.pyref)
    (cls : Tap.conn_class) (config : pydict) :
  Tap.attr_conn class_conn self = Ok c ->
  Tap.ref_bool c h = false ->
  Tap._conn_class self = Some cls ->
  Tap._config self = Some config ->
  Tap.cc_init cls config = None ->
  Tap.cc_truthy cls = false ->
  let inst := {| Tap.inst_class := cls; Tap.inst_config := config |} in
  exists self1 self2,
    Tap.get_connection class_conn self h
    = Ok (Tap.RObj (length h), self1, h ++ [inst])
    /\ Tap.get_connection class_conn self1 (h ++ [inst])
       = Ok (Tap.RObj (S (length h)), self2, (h ++ [inst]) ++ [inst]).
Proof.
  intros Hc Hb Hcls Hcfg Hinit Hfalse inst.
  exists (Tap.set_conn (Tap.RObj (length h)) self).
  exists (Tap.set_conn (Tap.RObj (S (length h)))
            (Tap.set_conn (Tap.RObj (length h)) self)).
  split.
  - apply (get_connection_creates class_conn self h c cls config);
      assumption.
  - rewrite (get_connection_creates class_conn _ (h ++ [inst])
               (Tap.RObj (length h)) cls config);
      try reflexivity; try assumption.
    + rewrite length_app. simpl. now rewrite Nat.add_1_r.
    + cbn [Tap.ref_bool]. unfold inst.
      rewrite list_lookup_middle by reflexivity. exact Hfalse.
Qed.

Lemma get_connection_false_instances_witness :
  let cls := {| Tap.cc_name := "EmptyConnection";
                Tap.cc_init := fun _ => None;
                Tap.cc_truthy := false |} in
  let inst := {| Tap.inst_class := cls; Tap.inst_config := [] |} in
  let self := {| Tap._name := Some "t"; Tap._vers := Some "0";
                 Tap._capabilities := Some []; Tap._accepted_options := Some [];
                 Tap._option_set_requirements := Some [];
                 Tap._config := Some []; Tap._conn_class := Some cls;
                 Tap._conn := Some Tap.RNone |} in
  exists self1 self2,
    Tap.get_connection None self [] = Ok (Tap.RObj (length (@nil Tap.conn_instance)), self1, [] ++ [inst])
    /\ Tap.get_connection None self1 ([] ++ [inst])
       = Ok (Tap.RObj (S (length (@nil Tap.conn_instance))), self2,
             ([] ++ [inst]) ++ [inst]).
Proof.
  intros cls inst self.
  apply (get_connection_false_instances None self [] Tap.RNone cls []);
    reflexivity.
Defined.

(** X19.  On a tap whose [_conn] has a value and whose connection class
    constructs true instances, any number of [get_connection()] calls
    return one and the same reference and construct at most one
    connection: none when [_conn] was true already, one otherwise. *)
Theorem get_connections_one_instance (class_conn : option Tap.pyref)
    (self : Tap.TapBase) (h : Tap.heap) (c : Tap.pyref)
    (cls : Tap.conn_class) (config : pydict) (n : nat) :
  Tap.attr_conn class_conn self = Ok c ->
  Tap._conn_class self = Some cls ->
  Tap._config self = Some config ->
  Tap.cc_init cls config = None ->
  Tap.cc_truthy cls = true ->
  exists c1 self' h',
    Tap.get_connections class_conn (S n) self h
    = Ok (repeat c1 (S n), self', h')
    /\ (if Tap.ref_bool c h then c1 = c /\ self' = self /\ h' = h
        else c1 = Tap.RObj (length h)
             /\ h' = h ++ [{| Tap.inst_class := cls;
                              Tap.inst_config := config |}]).
Proof.
  intros Hc Hcls Hcfg Hinit Htrue.
  destruct (Tap.ref_bool c h) eqn:Eb.
  - exists c, self, h.
    rewrite (get_connections_existing class_conn self h c Hc Eb). auto.
  - eexists _, _, _. split; [|split; reflexivity].
    cbn [Tap.get_connections].
    rewrite (get_connection_creates class_conn self h c cls config
               Hc Eb Hcls Hcfg Hinit).
    bind_step.
    rewrite (get_connections_existing class_conn _ _ (Tap.RObj (length h)));
      [reflexivity|reflexivity|].
    cbn [Tap.ref_bool]. rewrite list_lookup_middle by reflexivity.
    exact Htrue.
Qed.

Lemma get_connections_one_instance_witness :
  let self := {| Tap._name := Some "t"; Tap._vers := Some "0";
                 Tap._capabilities := Some []; Tap._accepted_options := Some [];
                 Tap._option_set_requirements := Some [];
                 Tap._config := Some [];
                 Tap._conn_class := Some Samples.a_conn_class;
                 Tap._conn := Some Tap.RNone |} in
  exists c1 self' h',
    Tap.get_connections None 3 self [] = Ok (repeat c1 3, self', h')
    /\ (if Tap.ref_bool Tap.RNone [] then c1 = Tap.RNone /\ self' = self /\ h' = []
        else c1 = Tap.RObj (length (@nil Tap.conn_instance))
             /\ h' = [] ++ [{| Tap.inst_class := Samples.a_conn_class;
                               Tap.inst_config := [] |}]).
Proof.
  intros self.
  apply (get_connections_one_instance None self [] Tap.RNone
           Samples.a_conn_class [] 2);
    reflexivity.
Defined.

(** ** The sample connection, continued *)

Section QueryMore.

Import SampleConnection.

Variable DB : Type.
Variable execute : string -> pyval -> DB -> pyresult (Z * list row) * DB.

(** A loop that ends normally met no row count above a non-zero limit. *)
Lemma run_queries_within : forall queries params max_records result w rows,
  fst (run_queries DB execute queries params max_records result w) = Ok rows ->
  Forall (fun o => max_records = 0 \/ fst o <= max_records)
    (outcomes DB execute queries params (db w)).
Proof.
  induction queries as [|sql queries IH];
    intros params max_records result w rows; [constructor|].
  cbn [run_queries outcomes emit db trace].
  destruct (execute sql params (db w)) as [[[rowcount rs]|e] d] eqn:Ex;
    [|discriminate].
  destruct (negb (max_records =? 0) && (rowcount >? max_records))%bool
    eqn:Eg; [discriminate|].
  assert (Hg : max_records = 0 \/ rowcount <= max_records).
  { apply andb_false_iff in Eg as [E|E].
    - left. apply negb_false_iff, Z.eqb_eq in E. exact E.
    - right. rewrite Z.gtb_ltb, Z.ltb_ge in E. exact E. }
  destruct (rowcount >? 0); intros H; apply IH in H;
    cbn [db] in H; constructor; auto.
Qed.

(** The first statement whose row count is above a non-zero limit ends
    the loop: it has been executed, nothing is fetched for it and no later
    statement is executed. *)
Lemma run_queries_guard : forall queries params max_records result w i
    rowcount rows,
  max_records <> 0 ->
  outcomes DB execute queries params (db w) !! i = Some (rowcount, rows) ->
  rowcount > max_records ->
  (forall j o, (j < i)%nat ->
     outcomes DB execute queries params (db w) !! j = Some o ->
     fst o <= max_records) ->
  exists mid sql,
    queries !! i = Some sql
    /\ fst (run_queries DB execute queries params max_records result w)
       = Raise (NameError "TooManyRecordsException")
    /\ trace (snd (run_queries DB execute queries params max_records result w))
       = trace w ++ mid ++ [EvExecute sql]
    /\ forallb statement_event mid = true
    /\ executed mid = take i queries.
Proof.
  induction queries as [|sql queries IH];
    intros params max_records result w i rowcount rows Hm Hi Hrc Hbefore.
  - destruct i; discriminate.
  - cbn [run_queries outcomes emit db trace] in *.
    destruct (execute sql params (db w)) as [[[rc0 rows0]|e] d] eqn:Ex;
      [|destruct i; discriminate].
    destruct i as [|i].
    + injection Hi as -> ->.
      apply Z.eqb_neq in Hm. apply Z.gt_lt, Z.ltb_lt in Hrc.
      rewrite Z.gtb_ltb, Hm, Hrc. cbn [negb andb fst snd trace].
      exists [], sql. auto.
    + assert (H0 : rc0 <= max_records).
      { apply (Hbefore 0%nat (rc0, rows0)); [lia|reflexivity]. }
      assert (Eg : (negb (max_records =? 0) && (rc0 >? max_records))%bool
                   = false).
      { apply andb_false_iff. right. rewrite Z.gtb_ltb. now apply Z.ltb_ge. }
      rewrite Eg. cbn [lookup list_lookup] in Hi.
      assert (Hb' : forall j o, (j < i)%nat ->
                outcomes DB execute queries params d !! j = Some o ->
                fst o <= max_records).
      { intros j o Hj Ho. apply (Hbefore (S j) o); [lia|exact Ho]. }
      destruct (rc0 >? 0).
      * destruct (IH params max_records rows0
                    (emit DB EvFetchAll
                       {| db := d; trace := trace w ++ [EvExecute sql] |})
                    i rowcount rows Hm Hi Hrc Hb')
          as (mid & q & Hq & Hr & Ht & Hev & Hex).
        exists (EvExecute sql :: EvFetchAll :: mid), q.
        split; [exact Hq|]. split; [exact Hr|]. split; [|split].
        -- rewrite Ht. cbn [emit trace]. now rewrite <- !app_assoc.
        -- exact Hev.
        -- cbn. now rewrite Hex.
      * destruct (IH params max_records result
                    {| db := d; trace := trace w ++ [EvExecute sql] |}
                    i rowcount rows Hm Hi Hrc Hb')
          as (mid & q & Hq & Hr & Ht & Hev & Hex).
        exists (EvExecute sql :: mid), q.
        split; [exact Hq|]. split; [exact Hr|]. split; [|split].
        -- rewrite Ht. cbn [trace]. now rewrite <- !app_assoc.
        -- exact Hev.
        -- cbn. now rewrite Hex.
Qed.

End QueryMore.

(** X20.  A call of [query] with a single statement.  When the connection
    cannot be acquired nothing is executed.  Otherwise that statement, and
    no transaction statement, is executed exactly once between one
    connection and cursor acquisition and their release, whether the call
    returns or raises; a call that returns gives the statement's rows when
    its row count is positive and the empty list otherwise. *)
Theorem query_one_spec (DB : Type) (connect : DB -> pyresult () * DB)
    (execute : string -> pyval -> DB
               -> pyresult (Z * list SampleConnection.row) * DB)
    (sql : string) (params : pyval) (max_records : Z)
    (w : SampleConnection.world DB) :
  let out := SampleConnection.query DB connect execute
               (SampleConnection.QueryOne sql) params max_records w in
  match connect (SampleConnection.db w) with
  | (Raise e, d) =>
      out = (Raise e, SampleConnection.mkWorld d (SampleConnection.trace w))
  | (Ok _, d) =>
      exists mid,
        SampleConnection.trace (snd out)
        = SampleConnection.trace w
          ++ [SampleConnection.EvConnect; SampleConnection.EvCursor]
          ++ mid
          ++ [SampleConnection.EvCursorClose;
              SampleConnection.EvConnectionClose]
        /\ forallb SampleConnection.statement_event mid = true
        /\ SampleConnection.executed mid = [sql]
        /\ (forall rows, fst out = Ok rows ->
              exists rowcount rs d',
                execute sql params d = (Ok (rowcount, rs), d')
                /\ rows = if 0 <? rowcount then rs else [])
  end.
Proof.
  intros out. subst out. unfold SampleConnection.query.
  destruct (connect (SampleConnection.db w)) as [[[]|e] d]; [|reflexivity].
  pose proof (run_queries_spec DB execute [sql] params max_records []
                (SampleConnection.emit DB SampleConnection.EvCursor
                   (SampleConnection.emit DB SampleConnection.EvConnect
                      {| SampleConnection.db := d;
                         SampleConnection.trace := SampleConnection.trace w |})))
    as H.
  cbn zeta in H.
  destruct (SampleConnection.run_queries DB execute _ params max_records [] _)
    as [r w2].
  cbn [SampleConnection.emit SampleConnection.db SampleConnection.trace
       fst snd] in *.
  destruct H as (mid & Htr & Hev & (n & Hn & Hex) & Hret & _).
  exists mid. split; [|split; [exact Hev|split]].
  - rewrite Htr, <- !app_assoc. reflexivity.
  - rewrite Hex. destruct n as [|n]; [exfalso; apply (Nat.lt_irrefl 0), Hn;
      discriminate|]. destruct n; reflexivity.
  - intros rows Hr. destruct (Hret rows Hr) as (_ & Hlen & ->).
    revert Hlen. cbn [SampleConnection.outcomes].
    destruct (execute sql params d) as [[[rowcount rs]|e] d'];
      [|discriminate].
    intros _. exists rowcount, rs, d'. split; [reflexivity|].
    cbn. destruct (0 <? rowcount); reflexivity.
Qed.

(** X21.  A call of [query] that returns, with a single statement or a
    list: the connection was acquired, every statement was executed, none
    reported a row count above a non-zero [max_records], and the value
    returned is the rows of the last statement with a positive row
    count. *)
Theorem query_returns_within_limit (DB : Type)
    (connect : DB -> pyresult () * DB)
    (execute : string -> pyval -> DB
               -> pyresult (Z * list SampleConnection.row) * DB)
    (q : SampleConnection.query_arg) (params : pyval) (max_records : Z)
    (w : SampleConnection.world DB) (rows : list SampleConnection.row) :
  fst (SampleConnection.query DB connect execute q params max_records w)
  = Ok rows ->
  exists d,
    connect (SampleConnection.db w) = (Ok (), d)
    /\ let outs := SampleConnection.outcomes DB execute
                     (SampleConnection.statements_of q) params d in
       length outs = length (SampleConnection.statements_of q)
       /\ Forall (fun o => max_records = 0 \/ fst o <= max_records) outs
       /\ rows = SampleConnection.last_positive outs.
Proof.
  unfold SampleConnection.query.
  destruct (connect (SampleConnection.db w)) as [[[]|e] d]; [|discriminate].
  change (match q with
          | SampleConnection.QueryList statements =>
              "START TRANSACTION" :: statements
          | SampleConnection.QueryOne statement => [statement]
          end) with (SampleConnection.statements_of q).
  set (w1 := SampleConnection.emit DB SampleConnection.EvCursor
               (SampleConnection.emit DB SampleConnection.EvConnect
                  {| SampleConnection.db := d;
                     SampleConnection.trace := SampleConnection.trace w |})).
  pose proof (run_queries_spec DB execute (SampleConnection.statements_of q)
                params max_records [] w1) as H.
  pose proof (run_queries_within DB execute (SampleConnection.statements_of q)
                params max_records [] w1 rows) as Hw.
  cbn zeta in H.
  destruct (SampleConnection.run_queries DB execute _ params max_records [] w1)
    as [r w2].
  cbn [fst snd] in *. intros Hr. exists d. split; [reflexivity|].
  destruct H as (mid & _ & _ & _ & Hret & _).
  destruct (Hret rows Hr) as (_ & Hlen & Hrows).
  split; [exact Hlen|]. split; [exact (Hw Hr)|]. exact Hrows.
Qed.

Lemma query_returns_within_limit_witness :
  exists d,
    Samples.wh_connect (SampleConnection.db Samples.wh_start) = (Ok (), d)
    /\ let outs := SampleConnection.outcomes unit Samples.wh_execute
                     (SampleConnection.statements_of
                        (SampleConnection.QueryList ["SELECT N FROM T"]))
                     VNone d in
       length outs
       = length (SampleConnection.statements_of
                   (SampleConnection.QueryList ["SELECT N FROM T"]))
       /\ Forall (fun o => 5 = 0 \/ fst o <= 5) outs
       /\ Samples.two_rows = SampleConnection.last_positive outs.
Proof.
  apply (query_returns_within_limit unit Samples.wh_connect Samples.wh_execute
           (SampleConnection.QueryList ["SELECT N FROM T"]) VNone 5
           Samples.wh_start Samples.two_rows).
  vm_compute. reflexivity.
Defined.

(** X22.  When the connection is acquired and, executing the statements
    in order, the first row count above a non-zero [max_records] is
    reported by the statement at position [i], the call raises
    [NameError] for [TooManyRecordsException]; the statements before
    position [i] and that statement have been executed, nothing is fetched
    for it, no later statement is executed, and cursor and connection are
    released. *)
Theorem query_guard_stops (DB : Type) (connect : DB -> pyresult () * DB)
    (execute : string -> pyval -> DB
               -> pyresult (Z * list SampleConnection.row) * DB)
    (q : SampleConnection.query_arg) (params : pyval) (max_records : Z)
    (w : SampleConnection.world DB) (d : DB) (i : nat) (rowcount : Z)
    (rows : list SampleConnection.row) :
  connect (SampleConnection.db w) = (Ok (), d) ->
  max_records <> 0 ->
  SampleConnection.outcomes DB execute (SampleConnection.statements_of q)
    params d !! i = Some (rowcount, rows) ->
  rowcount > max_records ->
  (forall j o, (j < i)%nat ->
     SampleConnection.outcomes DB execute (SampleConnection.statements_of q)
       params d !! j = Some o ->
     fst o <= max_records) ->
  let out := SampleConnection.query DB connect execute q params max_records w in
  exists mid sql,
    SampleConnection.statements_of q !! i = Some sql
    /\ fst out = Raise (NameError "TooManyRecordsException")
    /\ SampleConnection.trace (snd out)
       = SampleConnection.trace w
         ++ [SampleConnection.EvConnect; SampleConnection.EvCursor]
         ++ mid
         ++ [SampleConnection.EvExecute sql; SampleConnection.EvCursorClose;
             SampleConnection.EvConnectionClose]
    /\ forallb SampleConnection.statement_event mid = true
    /\ SampleConnection.executed mid
       = take i (SampleConnection.statements_of q).
Proof.
  intros Hc Hm Hi Hrc Hbefore out. subst out.
  unfold SampleConnection.query. rewrite Hc.
  change (match q with
          | SampleConnection.QueryList statements =>
              "START TRANSACTION" :: statements
          | SampleConnection.QueryOne statement => [statement]
          end) with (SampleConnection.statements_of q).
  set (w1 := SampleConnection.emit DB SampleConnection.EvCursor
               (SampleConnection.emit DB SampleConnection.EvConnect
                  {| SampleConnection.db := d;
                     SampleConnection.trace := SampleConnection.trace w |})).
  destruct (run_queries_guard DB execute (SampleConnection.statements_of q)
              params max_records [] w1 i rowcount rows Hm Hi Hrc Hbefore)
    as (mid & sql & Hq & Hr & Ht & Hev & Hex).
  destruct (SampleConnection.run_queries DB execute _ params max_records [] w1)
    as [r w2].
  cbn [fst snd] in *. exists mid, sql.
  split; [exact Hq|]. split; [exact Hr|]. split; [|split; assumption].
  cbn [SampleConnection.emit SampleConnection.trace]. rewrite Ht.
  unfold w1. cbn [SampleConnection.emit SampleConnection.trace].
  rewrite <- !app_assoc. reflexivity.
Qed.

Lemma query_guard_stops_witness :
  let q := SampleConnection.QueryList ["SELECT N FROM T"; "DELETE FROM T"] in
  let out := SampleConnection.query unit Samples.wh_connect Samples.wh_execute
               q VNone 1 Samples.wh_start in
  exists mid sql,
    SampleConnection.statements_of q !! 1%nat = Some sql
    /\ fst out = Raise (NameError "TooManyRecordsException")
    /\ SampleConnection.trace (snd out)
       = SampleConnection.trace Samples.wh_start
         ++ [SampleConnection.EvConnect; SampleConnection.EvCursor]
         ++ mid
         ++ [SampleConnection.EvExecute sql; SampleConnection.EvCursorClose;
             SampleConnection.EvConnectionClose]
    /\ forallb SampleConnection.statement_event mid = true
    /\ SampleConnection.executed mid
       = take 1 (SampleConnection.statements_of q).
Proof.
  intros q.
  apply (query_guard_stops unit Samples.wh_connect Samples.wh_execute q VNone 1
           Samples.wh_start tt 1 2 Samples.two_rows).
  - reflexivity.
  - lia.
  - reflexivity.
  - lia.
  - intros [|j] o Hj Ho; [|lia]. vm_compute in Ho.
    injection Ho as <-. simpl. lia.
Defined.

(** ** Truth values and text of values, on examples *)

Example drain_none (self : Sink.Sink) :
  Sink.drain self (Sink.ObjTruth "NoneType" false None) = Ok ().
Proof. reflexivity. Qed.

Example drain_plain_object (self : Sink.Sink) :
  Sink.py_bool (Sink.ObjOther "object" None) = true
  /\ Sink.py_bool (Sink.ObjTruth "int" false None) = false
  /\ Sink.py_bool (Sink.ObjTruth "int" true None) = true.
Proof. repeat split. Qed.

Example repr_str_no_break_space :
  Tap.repr_str (String (ascii_of_nat 160) "x")
  = String Tap.squote (String Tap.backslash "xa0x'").
Proof. vm_compute. reflexivity. Qed.

Example repr_str_soft_hyphen_and_control :
  Tap.repr_str (String (ascii_of_nat 173) (String (ascii_of_nat 133) "k"))
  = String Tap.squote
      (String Tap.backslash ("xad" +:+ String Tap.backslash "x85k'")).
Proof. vm_compute. reflexivity. Qed.

Example repr_str_printable_latin :
  Tap.repr_str (String (ascii_of_nat 233) "t")
  = String Tap.squote (String (ascii_of_nat 233) "t'").
Proof. vm_compute. reflexivity. Qed.

Example repr_str_quotes :
  Tap.repr_str "it's"
  = String Tap.dquote ("it's" +:+ String Tap.dquote EmptyString).
Proof. vm_compute. reflexivity. Qed.
